(** * K-Pop idol query service: a model of [main.py] and its properties

    The service answers five read-only HTTP routes over one relational
    table, [kpop_idol_followers].  Three routes go through the ORM query
    interface, two build the text of a [SELECT] statement and hand it to the
    database.  The model keeps that split: ORM queries carry a structured
    criterion, textual statements are strings that the model of the backend
    reads, checks and evaluates. *)

From Stdlib Require Import ZArith Ascii Bool Lia.
From Stdlib Require String.
From stdpp Require Import base option list gmap strings pretty.

Local Open Scope Z_scope.

(** ** The table *)

(** A [DateTime] column value. *)
Record datetime := {
  year : Z; month : Z; day : Z;
  hour : Z; minute : Z; second : Z
}.

(** The mapped class [KpopIdol].  [Stage_Name] is the primary key, every
    other column is nullable. *)
Record KpopIdol := {
  Stage_Name : string;
  Group : option string;
  ig_name : option string;
  Followers : option Z;
  Gender_x : option string;
  Full_Name : option string;
  Korean_Name : option string;
  K_Stage_Name : option string;
  Date_of_Birth : option datetime;
  Debut : option datetime;
  Company : option string;
  Country : option string;
  Second_Country : option string;
  Height : option string;
  Weight : option string;
  Birthplace : option string;
  Other_Group : option string;
  Former_Group : option string;
  Gender_y : option string;
  age : option Z;
  year_career : option Z
}.

(** Values that appear in rows, in bound parameters and in the mappings the
    routes return.  [VInstanceState] stands for the ORM's bookkeeping object
    that every loaded instance carries next to its column values. *)
Inductive sqlvalue :=
| VNull
| VStr (s : string)
| VInt (z : Z)
| VDate (d : datetime)
| VInstanceState.

Inductive coltype := TString | TInteger | TDateTime.

Definition tablename : string := "kpop_idol_followers".

(** [KpopIdol.__table__.columns], in declaration order. *)
Definition columns : list (string * coltype) :=
  [ ("Stage_Name", TString); ("Group", TString); ("ig_name", TString);
    ("Followers", TInteger); ("Gender_x", TString); ("Full_Name", TString);
    ("Korean_Name", TString); ("K_Stage_Name", TString);
    ("Date_of_Birth", TDateTime); ("Debut", TDateTime);
    ("Company", TString); ("Country", TString); ("Second_Country", TString);
    ("Height", TString); ("Weight", TString); ("Birthplace", TString);
    ("Other_Group", TString); ("Former_Group", TString);
    ("Gender_y", TString); ("age", TInteger); ("year_career", TInteger) ].

Definition column_names : list string := map fst columns.

Definition str_value (o : option string) : sqlvalue :=
  match o with Some s => VStr s | None => VNull end.
Definition int_value (o : option Z) : sqlvalue :=
  match o with Some z => VInt z | None => VNull end.
Definition date_value (o : option datetime) : sqlvalue :=
  match o with Some d => VDate d | None => VNull end.

(** The column values of a row, in declaration order. *)
Definition row_values (r : KpopIdol) : list (string * sqlvalue) :=
  [ ("Stage_Name", VStr (Stage_Name r)); ("Group", str_value (Group r));
    ("ig_name", str_value (ig_name r)); ("Followers", int_value (Followers r));
    ("Gender_x", str_value (Gender_x r)); ("Full_Name", str_value (Full_Name r));
    ("Korean_Name", str_value (Korean_Name r));
    ("K_Stage_Name", str_value (K_Stage_Name r));
    ("Date_of_Birth", date_value (Date_of_Birth r));
    ("Debut", date_value (Debut r));
    ("Company", str_value (Company r)); ("Country", str_value (Country r));
    ("Second_Country", str_value (Second_Country r));
    ("Height", str_value (Height r)); ("Weight", str_value (Weight r));
    ("Birthplace", str_value (Birthplace r));
    ("Other_Group", str_value (Other_Group r));
    ("Former_Group", str_value (Former_Group r));
    ("Gender_y", str_value (Gender_y r)); ("age", int_value (age r));
    ("year_career", int_value (year_career r)) ].

Fixpoint assoc {A} (k : string) (l : list (string * A)) : option A :=
  match l with
  | [] => None
  | (k', a) :: l' => if String.eqb k k' then Some a else assoc k l'
  end.

Definition column_value (r : KpopIdol) (c : string) : option sqlvalue :=
  assoc c (row_values r).

Definition column_type (c : string) : option coltype := assoc c columns.

(** ** Python helpers *)

(** Truthiness of an optional string and of an optional integer: [None],
    the empty string and [0] are false. *)
Definition truthy_str (o : option string) : bool :=
  match o with
  | Some (String _ _) => true
  | _ => false
  end.

Definition truthy_int (o : option Z) : bool :=
  match o with
  | Some z => negb (z =? 0)
  | None => false
  end.

(** The string held by a parameter (used once it is known to be true). *)
Definition str_of (o : option string) : string := default EmptyString o.
Definition int_of (o : option Z) : Z := default 0 o.

Definition startswith (s p : string) : bool := String.prefix p s.

Definition in_list (x : string) (l : list string) : bool :=
  existsb (String.eqb x) l.

(** [sub in s]. *)
Fixpoint contains (s sub : string) : bool :=
  String.prefix sub s ||
  match s with
  | EmptyString => false
  | String _ s' => contains s' sub
  end.

(** ** The backend

    What the database does with a criterion (module [Sql]): conditions over
    one row in three-valued logic, the [LIKE] operator, and the reading of a
    statement text (bind markers, tokens, grammar, types).  The dialect is
    MySQL's, as spoken by TiDB, restricted to the shapes of statement the
    service sends; a text outside that fragment is refused, never given a
    made-up meaning.  Comparison of strings is byte-wise (binary
    collation). *)
Module Sql.

Inductive operand :=
| OCol (c : string)          (* `c` *)
| OYear (c : string)         (* YEAR(`c`) *)
| OParam (p : string)        (* :p *)
| OLit (v : sqlvalue).          (* 'text' or 123 *)

Inductive cmp := CEq | CGe | CLe | CLike.

Inductive cond :=
| CCmp (a : operand) (op : cmp) (b : operand)
| CIsNull (a : operand)
| CAnd (a b : cond)
| COr (a b : cond).

(** *** LIKE *)

(** [like p s]: does [s] match the pattern [p]?  [%] matches any run of
    characters, [_] any one character, a backslash takes the next pattern
    character literally. *)
Fixpoint like (p : string) : string → bool :=
  match p with
  | EmptyString => λ s, match s with EmptyString => true | _ => false end
  | String c p' =>
      if Ascii.eqb c "%" then
        fix any (s : string) : bool :=
          like p' s || match s with
                       | EmptyString => false
                       | String _ s' => any s'
                       end
      else if Ascii.eqb c "_" then
        λ s, match s with EmptyString => false | String _ s' => like p' s' end
      else if Ascii.eqb c "\" then
        match p' with
        | EmptyString =>
            λ s, match s with
                 | String d EmptyString => Ascii.eqb d "\"
                 | _ => false
                 end
        | String e p'' =>
            λ s, match s with
                 | EmptyString => false
                 | String d s' => Ascii.eqb e d && like p'' s'
                 end
        end
      else
        λ s, match s with
             | EmptyString => false
             | String d s' => Ascii.eqb c d && like p' s'
             end
  end.

(** *** Evaluation *)

Definition pad2 (z : Z) : string :=
  if z <? 10 then "0" +:+ pretty z else pretty z.
Definition pad4 (z : Z) : string :=
  if z <? 10 then "000" +:+ pretty z
  else if z <? 100 then "00" +:+ pretty z
  else if z <? 1000 then "0" +:+ pretty z
  else pretty z.

(** A value as text, the way a non-string operand of [LIKE] is compared. *)
Definition render (v : sqlvalue) : option string :=
  match v with
  | VStr s => Some s
  | VInt z => Some (pretty z)
  | VDate d =>
      Some (pad4 (year d) +:+ "-" +:+ pad2 (month d) +:+ "-" +:+ pad2 (day d)
            +:+ " " +:+ pad2 (hour d) +:+ ":" +:+ pad2 (minute d)
            +:+ ":" +:+ pad2 (second d))
  | VNull | VInstanceState => None
  end.

Definition eval_operand (params : gmap string sqlvalue) (r : KpopIdol)
    (o : operand) : sqlvalue :=
  match o with
  | OCol c => default VNull (column_value r c)
  | OYear c =>
      match column_value r c with
      | Some (VDate d) => VInt (year d)
      | _ => VNull
      end
  | OParam p => default VNull (params !! p)
  | OLit v => v
  end.

(** A comparison is unknown ([None]) as soon as one side is null. *)
Definition compare (op : cmp) (a b : sqlvalue) : option bool :=
  match op with
  | CLike =>
      match render a, render b with
      | Some s, Some p => Some (like p s)
      | _, _ => None
      end
  | CEq =>
      match a, b with
      | VInt x, VInt y => Some (x =? y)
      | VStr x, VStr y => Some (String.eqb x y)
      | _, _ => None
      end
  | CGe =>
      match a, b with
      | VInt x, VInt y => Some (y <=? x)
      | _, _ => None
      end
  | CLe =>
      match a, b with
      | VInt x, VInt y => Some (x <=? y)
      | _, _ => None
      end
  end.

Definition and3 (a b : option bool) : option bool :=
  match a, b with
  | Some false, _ | _, Some false => Some false
  | Some true, Some true => Some true
  | _, _ => None
  end.

Definition or3 (a b : option bool) : option bool :=
  match a, b with
  | Some true, _ | _, Some true => Some true
  | Some false, Some false => Some false
  | _, _ => None
  end.

Fixpoint eval (params : gmap string sqlvalue) (r : KpopIdol) (c : cond)
    : option bool :=
  match c with
  | CCmp a op b => compare op (eval_operand params r a) (eval_operand params r b)
  | CIsNull a =>
      Some (match eval_operand params r a with VNull => true | _ => false end)
  | CAnd a b => and3 (eval params r a) (eval params r b)
  | COr a b => or3 (eval params r a) (eval params r b)
  end.

(** A row is selected when the condition is true, not when it is unknown. *)
Definition holds (params : gmap string sqlvalue) (c : cond) (r : KpopIdol) : bool :=
  match eval params r c with Some true => true | _ => false end.

(** *** Types *)

Definition value_type (v : sqlvalue) : option coltype :=
  match v with
  | VStr _ => Some TString
  | VInt _ => Some TInteger
  | VDate _ => Some TDateTime
  | VNull | VInstanceState => None
  end.

Definition operand_type (params : gmap string sqlvalue) (o : operand)
    : option coltype :=
  match o with
  | OCol c => column_type c
  | OYear c =>
      match column_type c with
      | Some TDateTime => Some TInteger
      | _ => None
      end
  | OParam p => params !! p ≫= value_type
  | OLit v => value_type v
  end.

(** The comparisons the fragment gives a meaning to: [LIKE] against a
    string pattern, equality of two integers or two strings, order of two
    integers.  Every column named must exist. *)
Fixpoint well_typed (params : gmap string sqlvalue) (c : cond) : bool :=
  match c with
  | CCmp a op b =>
      match operand_type params a, op, operand_type params b with
      | Some _, CLike, Some TString => true
      | Some TInteger, (CEq | CGe | CLe), Some TInteger => true
      | Some TString, CEq, Some TString => true
      | _, _, _ => false
      end
  | CIsNull a =>
      match operand_type params a with Some _ => true | None => false end
  | CAnd a b | COr a b => well_typed params a && well_typed params b
  end.

(** *** Bind markers

    Before a textual statement reaches the database, the client library
    scans the whole text, quoted parts included, for markers [:name]: a
    colon that does not follow a colon, a word character or a backslash, and
    is followed by a run of word characters that does not end just before
    another colon (the run gives up its last character if it must).  Every
    marker needs a value among the parameters. *)

Definition is_digit (c : ascii) : bool :=
  (("0" <=? c) && (c <=? "9"))%char.
Definition is_alpha (c : ascii) : bool :=
  ((("a" <=? c) && (c <=? "z")) || (("A" <=? c) && (c <=? "Z"))
   || Ascii.eqb c "_")%char.
Definition is_word (c : ascii) : bool := is_alpha c || is_digit c.

Definition snoc (s : string) (c : ascii) : string := s +:+ String c EmptyString.

(** The longest run of word characters at the head of [s], and what follows. *)
Fixpoint word_run (s : string) : string * string :=
  match s with
  | String c s' =>
      if is_word c then let '(w, rest) := word_run s' in (String c w, rest)
      else (EmptyString, s)
  | EmptyString => (EmptyString, EmptyString)
  end.

Fixpoint drop_last (s : string) : string :=
  match s with
  | EmptyString | String _ EmptyString => EmptyString
  | String c s' => String c (drop_last s')
  end.

(** The name of the marker whose colon has just been read, if there is one. *)
Definition marker_name (after_colon : string) : option string :=
  match word_run after_colon with
  | (EmptyString, _) => None
  | (w, String ":" _) =>
      match drop_last w with
      | EmptyString => None
      | w' => Some w'
      end
  | (w, _) => Some w
  end.

Fixpoint scan_markers (blocked : bool) (s : string) : list string :=
  match s with
  | EmptyString => []
  | String c s' =>
      let here :=
        if Ascii.eqb c ":" && negb blocked then
          match marker_name s' with Some n => [n] | None => [] end
        else [] in
      here ++ scan_markers (Ascii.eqb c ":" || is_word c || Ascii.eqb c "\") s'
  end.

Definition bind_names (text : string) : list string := scan_markers false text.

(** *** Tokens *)

Inductive token :=
| TWord (s : string)      (* keyword or bare name *)
| TQuoted (s : string)    (* `name` *)
| TLiteral (s : string)   (* 'text' *)
| TNumber (z : Z)
| TBind (s : string)      (* :name *)
| TStar | TLParen | TRParen | TEq | TGe | TLe.

Inductive mode :=
| MTop
| MWord (acc : string)
| MNumber (acc : Z)
| MQuoted (acc : string)    (* between backquotes *)
| MLiteral (acc : string)   (* between quotes *)
| MEscape (acc : string)    (* in a literal, after a backslash *)
| MQuote (acc : string)     (* in a literal, after a quote: its end, or the
                               first half of a doubled quote *)
| MBind (acc : string)
| MLess
| MGreater.

Definition digit_value (c : ascii) : Z :=
  Z.of_nat (nat_of_ascii c) - 48.

(** What a backslash followed by [c] stands for in a literal. *)
Definition unescape (c : ascii) : string :=
  match c with
  | "0"%char => String "000" EmptyString
  | "b"%char => String "008" EmptyString
  | "t"%char => String "009" EmptyString
  | "n"%char => String "010" EmptyString
  | "r"%char => String "013" EmptyString
  | "Z"%char => String "026" EmptyString
  | "%"%char => "\%"
  | "_"%char => "\_"
  | _ => String c EmptyString
  end.

(** The first character of a token. *)
Definition start (c : ascii) (out : list token) : option (mode * list token) :=
  if Ascii.is_space c then Some (MTop, out)
  else if is_alpha c then Some (MWord (String c EmptyString), out)
  else if is_digit c then Some (MNumber (digit_value c), out)
  else
    match c with
    | "`" => Some (MQuoted EmptyString, out)
    | "'" => Some (MLiteral EmptyString, out)
    | ":" => Some (MBind EmptyString, out)
    | "*" => Some (MTop, out ++ [TStar])
    | "(" => Some (MTop, out ++ [TLParen])
    | ")" => Some (MTop, out ++ [TRParen])
    | "=" => Some (MTop, out ++ [TEq])
    | "<" => Some (MLess, out)
    | ">" => Some (MGreater, out)
    | _ => None
    end%char.

Definition step (st : mode * list token) (c : ascii) : option (mode * list token) :=
  let '(m, out) := st in
  match m with
  | MTop => start c out
  | MWord acc =>
      if is_word c then Some (MWord (snoc acc c), out)
      else start c (out ++ [TWord acc])
  | MNumber n =>
      if is_digit c then Some (MNumber (10 * n + digit_value c), out)
      else if is_alpha c then None
      else start c (out ++ [TNumber n])
  | MQuoted acc =>
      if Ascii.eqb c "`" then Some (MTop, out ++ [TQuoted acc])
      else Some (MQuoted (snoc acc c), out)
  | MLiteral acc =>
      if Ascii.eqb c "'" then Some (MQuote acc, out)
      else if Ascii.eqb c "\" then Some (MEscape acc, out)
      else Some (MLiteral (snoc acc c), out)
  | MEscape acc => Some (MLiteral (acc +:+ unescape c), out)
  | MQuote acc =>
      if Ascii.eqb c "'" then Some (MLiteral (snoc acc c), out)
      else start c (out ++ [TLiteral acc])
  | MBind acc =>
      if is_word c then Some (MBind (snoc acc c), out)
      else
        match acc with
        | EmptyString => None
        | _ => if Ascii.eqb c ":" then None else start c (out ++ [TBind acc])
        end
  | MLess => if Ascii.eqb c "=" then Some (MTop, out ++ [TLe]) else None
  | MGreater => if Ascii.eqb c "=" then Some (MTop, out ++ [TGe]) else None
  end.

Fixpoint lex_run (st : mode * list token) (s : string)
    : option (mode * list token) :=
  match s with
  | EmptyString => Some st
  | String c s' => step st c ≫= λ st', lex_run st' s'
  end.

(** At the end of the text: an open literal or quoted name is an error. *)
Definition finish (st : mode * list token) : option (list token) :=
  let '(m, out) := st in
  match m with
  | MTop => Some out
  | MWord acc => Some (out ++ [TWord acc])
  | MNumber n => Some (out ++ [TNumber n])
  | MQuote acc => Some (out ++ [TLiteral acc])
  | MBind (String _ _ as acc) => Some (out ++ [TBind acc])
  | _ => None
  end.

Definition lex (text : string) : option (list token) :=
  lex_run (MTop, []) text ≫= finish.

(** *** Grammar

    [SELECT * FROM kpop_idol_followers WHERE] followed by a condition:
    comparisons and [IS NULL] tests joined by [AND] and [OR], [AND] binding
    tighter, both associating to the left, parentheses allowed. *)

Definition is_kw (kw : string) (t : token) : bool :=
  match t with TWord w => String.eqb w kw | _ => false end.

Definition parse_operand (ts : list token) : option (operand * list token) :=
  match ts with
  | TQuoted c :: ts' => Some (OCol c, ts')
  | TWord w :: TLParen :: TQuoted c :: TRParen :: ts' =>
      if String.eqb w "YEAR" then Some (OYear c, ts') else None
  | TBind p :: ts' => Some (OParam p, ts')
  | TLiteral s :: ts' => Some (OLit (VStr s), ts')
  | TNumber z :: ts' => Some (OLit (VInt z), ts')
  | _ => None
  end.

Definition parse_test (ts : list token) : option (cond * list token) :=
  '(a, ts1) ← parse_operand ts;
  match ts1 with
  | TWord w :: ts2 =>
      if String.eqb w "LIKE" then
        '(b, ts3) ← parse_operand ts2; Some (CCmp a CLike b, ts3)
      else if String.eqb w "IS" then
        match ts2 with
        | t :: ts3 => if is_kw "NULL" t then Some (CIsNull a, ts3) else None
        | [] => None
        end
      else None
  | TEq :: ts2 => '(b, ts3) ← parse_operand ts2; Some (CCmp a CEq b, ts3)
  | TGe :: ts2 => '(b, ts3) ← parse_operand ts2; Some (CCmp a CGe b, ts3)
  | TLe :: ts2 => '(b, ts3) ← parse_operand ts2; Some (CCmp a CLe b, ts3)
  | _ => None
  end.

Fixpoint parse_or (n : nat) (ts : list token) : option (cond * list token) :=
  match n with
  | O => None
  | S n => '(a, ts1) ← parse_and n ts; or_rest n a ts1
  end
with or_rest (n : nat) (a : cond) (ts : list token) : option (cond * list token) :=
  match n with
  | O => None
  | S n =>
      match ts with
      | t :: ts1 =>
          if is_kw "OR" t then '(b, ts2) ← parse_and n ts1; or_rest n (COr a b) ts2
          else Some (a, ts)
      | [] => Some (a, ts)
      end
  end
with parse_and (n : nat) (ts : list token) : option (cond * list token) :=
  match n with
  | O => None
  | S n => '(a, ts1) ← parse_atom n ts; and_rest n a ts1
  end
with and_rest (n : nat) (a : cond) (ts : list token) : option (cond * list token) :=
  match n with
  | O => None
  | S n =>
      match ts with
      | t :: ts1 =>
          if is_kw "AND" t then '(b, ts2) ← parse_atom n ts1; and_rest n (CAnd a b) ts2
          else Some (a, ts)
      | [] => Some (a, ts)
      end
  end
with parse_atom (n : nat) (ts : list token) : option (cond * list token) :=
  match n with
  | O => None
  | S n =>
      match ts with
      | TLParen :: ts1 =>
          '(c, ts2) ← parse_or n ts1;
          match ts2 with
          | TRParen :: ts3 => Some (c, ts3)
          | _ => None
          end
      | _ => parse_test ts
      end
  end.

Definition parse (ts : list token) : option cond :=
  match ts with
  | TWord s :: TStar :: TWord f :: TWord t :: TWord w :: ts' =>
      if String.eqb s "SELECT" && String.eqb f "FROM" && String.eqb t tablename
         && String.eqb w "WHERE"
      then
        match parse_or (4 * S (length ts')) ts' with
        | Some (c, []) => Some c
        | _ => None
        end
      else None
  | _ => None
  end.

(** *** Running a statement *)

Definition bound (params : gmap string sqlvalue) (n : string) : bool :=
  bool_decide (is_Some (params !! n)).

(** The condition a statement text stands for, or [None] when the statement
    fails. *)
Definition read (text : string) (params : gmap string sqlvalue) : option cond :=
  if forallb (bound params) (bind_names text) then
    ts ← lex text;
    c ← parse ts;
    if well_typed params c then Some c else None
  else None.

Definition select (params : gmap string sqlvalue) (c : cond)
    (rows : list KpopIdol) : list KpopIdol :=
  List.filter (holds params c) rows.

End Sql.

(** ** Sessions and handlers *)

(** What a session was asked to run: an ORM query with its criterion, or a
    textual statement with its bound parameters. *)
Inductive statement :=
| OrmSelect (criterion : option Sql.cond)
| TextSelect (text : string) (params : gmap string sqlvalue).

(** A database session: the table it reads and the statements executed
    through it so far. *)
Record Session := {
  table : list KpopIdol;
  executed : list statement
}.

(** How a handler ends: it returns a body (status 200), raises an
    [HTTPException], or lets a database error through (status 500). *)
Inductive outcome (A : Type) :=
| Return (a : A)
| HTTPException (status_code : Z) (detail : string)
| DatabaseError.
Arguments Return {A} a.
Arguments HTTPException {A} status_code detail.
Arguments DatabaseError {A}.

Definition handler (A : Type) : Type := Session → outcome A * Session.

Definition ret {A} (a : A) : handler A := λ db, (Return a, db).

Definition raise {A} (status_code : Z) (detail : string) : handler A :=
  λ db, (HTTPException status_code detail, db).

Definition bind {A B} (m : handler A) (k : A → handler B) : handler B :=
  λ db,
    match m db with
    | (Return a, db') => k a db'
    | (HTTPException s d, db') => (HTTPException s d, db')
    | (DatabaseError, db') => (DatabaseError, db')
    end.

Notation "'let*' x ':=' m 'in' k" := (bind m (λ x, k))
  (at level 10, x name, m at level 100, k at level 200, only parsing).

Definition status {A} (o : outcome A) : Z :=
  match o with
  | Return _ => 200
  | HTTPException s _ => s
  | DatabaseError => 500
  end.

Definition record (st : statement) (db : Session) : Session :=
  {| table := table db; executed := executed db ++ [st] |}.

(** [db.query(KpopIdol).filter(criterion).all()]; no [filter] call is
    [None]. *)
Definition query_all (criterion : option Sql.cond) : handler (list KpopIdol) :=
  λ db,
    (Return match criterion with
            | None => table db
            | Some c => Sql.select ∅ c (table db)
            end,
     record (OrmSelect criterion) db).

(** A result row as a mapping from column name to value. *)
Definition row_mapping (r : KpopIdol) : gmap string sqlvalue :=
  list_to_map (row_values r).

(** [db.execute(text(query_str), params).mappings().all()]. *)
Definition execute (query_str : string) (params : gmap string sqlvalue)
    : handler (list (gmap string sqlvalue)) :=
  λ db,
    match Sql.read query_str params with
    | Some c =>
        (Return (row_mapping <$> Sql.select params c (table db)),
         record (TextSelect query_str params) db)
    | None => (DatabaseError, record (TextSelect query_str params) db)
    end.

(** [idol.__dict__] of a loaded instance: its column attributes and the
    ORM's state object. *)
Definition instance_dict (idol : KpopIdol) : gmap string sqlvalue :=
  <["_sa_instance_state" := VInstanceState]> (row_mapping idol).

(** [{k: v for k, v in idol.__dict__.items() if not k.startswith('_')}]. *)
Definition public_dict (idol : KpopIdol) : gmap string sqlvalue :=
  filter (λ kv : string * sqlvalue, startswith kv.1 "_" = false) (instance_dict idol).

(** [dict(row)]: a copy of the mapping. *)
Definition dict (row : gmap string sqlvalue) : gmap string sqlvalue := row.

(** ** The routes *)

(** [GET /] *)
Definition get_all_idols : handler (list (gmap string sqlvalue)) :=
  let* idols := query_all None in
  ret (public_dict <$> idols).

(** [GET /idol/{stage_name}] *)
Definition get_idol_by_stage_name (stage_name : string)
    : handler (list (gmap string sqlvalue)) :=
  let* idol :=
    query_all (Some (Sql.CCmp (Sql.OCol "Stage_Name") Sql.CEq
                              (Sql.OLit (VStr stage_name)))) in
  match idol with
  | [] => raise 404 "Idol not found."
  | _ => ret (public_dict <$> idol)
  end.

(** [GET /group/{group_name}] *)
Definition get_idols_by_group (group_name : string)
    : handler (list (gmap string sqlvalue)) :=
  let* idols :=
    query_all (Some (Sql.CCmp (Sql.OCol "Group") Sql.CEq
                              (Sql.OLit (VStr group_name)))) in
  match idols with
  | [] => raise 404 "Group not found or has no members in the dataset."
  | _ => ret (public_dict <$> idols)
  end.

(** The statement text that [search_idols] builds (the field has passed the
    checks). *)
Definition search_idols_query (field value : string) : string :=
  let query_str :=
    "SELECT * FROM kpop_idol_followers WHERE `" +:+ field +:+ "` LIKE '%"
    +:+ value +:+ "%'" in
  if in_list field ["Height"; "Weight"] then
    "SELECT * FROM kpop_idol_followers WHERE `" +:+ field +:+ "` LIKE '%"
    +:+ value +:+ "%' OR `" +:+ field +:+ "` IS NULL"
  else query_str.

(** [GET /search/] *)
Definition search_idols (field value : option string)
    : handler (list (gmap string sqlvalue)) :=
  if negb (truthy_str field) || negb (truthy_str value) then
    raise 400 "Both 'field' and 'value' are required."
  else if negb (in_list (str_of field) column_names) then
    raise 400 ("Field '" +:+ str_of field +:+ "' not found in the data.")
  else
    let query_str := search_idols_query (str_of field) (str_of value) in
    let* result := execute query_str ∅ in
    match result with
    | [] => raise 404 "No idols found matching the search criteria."
    | _ => ret (dict <$> result)
    end.

(** One optional criterion of [filter_idols]: when it is true, its clause
    is appended to the text and its value bound under [name]. *)
Definition add_clause (supplied : bool) (clause name : string) (v : sqlvalue)
    (q : string * gmap string sqlvalue) : string * gmap string sqlvalue :=
  if supplied then (q.1 +:+ clause, <[name := v]> q.2) else q.

(** [params.keys()]. *)
Definition keys (params : gmap string sqlvalue) : list string :=
  (map_to_list params).*1.

(** The statement text and the parameters after the six criteria have been
    looked at. *)
Definition filter_idols_where (gender country company : option string)
    (debut_year age_from age_to : option Z) : string * gmap string sqlvalue :=
  let q := ("SELECT * FROM kpop_idol_followers WHERE 1=1", ∅) in
  let q := add_clause (truthy_str gender) " AND `Gender_x` LIKE :gender"
             "gender" (VStr ("%" +:+ str_of gender +:+ "%")) q in
  let q := add_clause (truthy_str country) " AND `Country` LIKE :country"
             "country" (VStr ("%" +:+ str_of country +:+ "%")) q in
  let q := add_clause (truthy_str company) " AND `Company` LIKE :company"
             "company" (VStr ("%" +:+ str_of company +:+ "%")) q in
  let q := add_clause (truthy_int debut_year) " AND YEAR(`Debut`) = :debut_year"
             "debut_year" (VInt (int_of debut_year)) q in
  let q := add_clause (truthy_int age_from) " AND `age` >= :age_from"
             "age_from" (VInt (int_of age_from)) q in
  add_clause (truthy_int age_to) " AND `age` <= :age_to"
    "age_to" (VInt (int_of age_to)) q.

(** The test on the parameter names, and the clause it guards. *)
Definition names_height_or_weight (params : gmap string sqlvalue) : bool :=
  existsb (λ field, in_list field ["Height"; "Weight"]) (keys params).

Definition relax_height_weight (q : string * gmap string sqlvalue)
    : string * gmap string sqlvalue :=
  if names_height_or_weight q.2 then
    (q.1 +:+ " OR (`Height` IS NULL OR `Weight` IS NULL)", q.2)
  else q.

(** The statement text and the parameters that [filter_idols] builds. *)
Definition filter_idols_query (gender country company : option string)
    (debut_year age_from age_to : option Z) : string * gmap string sqlvalue :=
  relax_height_weight
    (filter_idols_where gender country company debut_year age_from age_to).

(** [GET /filter/] *)
Definition filter_idols (gender country company : option string)
    (debut_year age_from age_to : option Z)
    : handler (list (gmap string sqlvalue)) :=
  let '(query_str, params) :=
    filter_idols_query gender country company debut_year age_from age_to in
  let* result := execute query_str params in
  match result with
  | [] => raise 404 "No idols found matching the filter criteria."
  | _ => ret (dict <$> result)
  end.

(** ** Start-up *)

(** [load_dotenv()]: the variables of the [.env] file are added to the
    process environment; a variable the environment already has keeps its
    value. *)
Definition load_dotenv (dotenv environ : gmap string string)
    : gmap string string :=
  environ ∪ dotenv.

(** How loading the module ends: the engine is created on a URL, or a
    [ValueError] stops the process. *)
Inductive startup_result :=
| create_engine (url : string)
| ValueError (message : string).

(** The module-level configuration: load [.env], read [DATABASE_URL],
    refuse to start without it. *)
Definition startup (dotenv environ : gmap string string) : startup_result :=
  let environ := load_dotenv dotenv environ in
  let DATABASE_URL := environ !! "DATABASE_URL" in
  if negb (truthy_str DATABASE_URL) then
    ValueError "DATABASE_URL environment variable not set."
  else create_engine (str_of DATABASE_URL).

(** ** Reference points for the properties below *)

(** A pattern character that [LIKE] reads as itself. *)
Definition literal_char (c : ascii) : bool :=
  negb (Ascii.eqb c "%" || Ascii.eqb c "_" || Ascii.eqb c "\").

(** A character that can be spliced between quotes without ending the
    literal, starting an escape or starting a bind marker. *)
Definition inert_char (c : ascii) : bool :=
  negb (Ascii.eqb c "'" || Ascii.eqb c "\" || Ascii.eqb c ":").

Fixpoint all_chars (P : ascii → bool) (s : string) : bool :=
  match s with
  | EmptyString => true
  | String c s' => P c && all_chars P s'
  end.

Definition not_colon (c : ascii) : bool := negb (Ascii.eqb c ":").
Definition not_backquote (c : ascii) : bool := negb (Ascii.eqb c "`").

(** The tokens every statement of the service starts with. *)
Definition select_tokens : list Sql.token :=
  [Sql.TWord "SELECT"; Sql.TStar; Sql.TWord "FROM"; Sql.TWord tablename;
   Sql.TWord "WHERE"].

(** The clauses of [filter_idols] whose criterion is true, in the order the
    handler appends them. *)
Definition filter_clauses (gender country company : option string)
    (debut_year age_from age_to : option Z) : list Sql.cond :=
  (if truthy_str gender
   then [Sql.CCmp (Sql.OCol "Gender_x") Sql.CLike (Sql.OParam "gender")] else [])
  ++ (if truthy_str country
      then [Sql.CCmp (Sql.OCol "Country") Sql.CLike (Sql.OParam "country")] else [])
  ++ (if truthy_str company
      then [Sql.CCmp (Sql.OCol "Company") Sql.CLike (Sql.OParam "company")] else [])
  ++ (if truthy_int debut_year
      then [Sql.CCmp (Sql.OYear "Debut") Sql.CEq (Sql.OParam "debut_year")] else [])
  ++ (if truthy_int age_from
      then [Sql.CCmp (Sql.OCol "age") Sql.CGe (Sql.OParam "age_from")] else [])
  ++ (if truthy_int age_to
      then [Sql.CCmp (Sql.OCol "age") Sql.CLe (Sql.OParam "age_to")] else []).

(** [WHERE 1=1 AND c1 AND ... AND cn]. *)
Definition filter_condition (clauses : list Sql.cond) : Sql.cond :=
  fold_left Sql.CAnd clauses
    (Sql.CCmp (Sql.OLit (VInt 1)) Sql.CEq (Sql.OLit (VInt 1))).

(** The condition of the statement that [search_idols] sends when the value
    is spliced into the text unharmed. *)
Definition search_condition (field value : string) : Sql.cond :=
  let matches :=
    Sql.CCmp (Sql.OCol field) Sql.CLike (Sql.OLit (VStr ("%" +:+ value +:+ "%"))) in
  if in_list field ["Height"; "Weight"]
  then Sql.COr matches (Sql.CIsNull (Sql.OCol field))
  else matches.

(** The rows [search_idols] means to select: those whose field, as text,
    matches [%value%], and for Height and Weight also those where it is
    null. *)
Definition search_matches (field value : string) (r : KpopIdol) : bool :=
  match default VNull (column_value r field) with
  | VNull => in_list field ["Height"; "Weight"]
  | x =>
      match Sql.render x with
      | Some s => Sql.like ("%" +:+ value +:+ "%") s
      | None => false
      end
  end.

(** The six criteria as the route documents them, on one row: a criterion
    that is not true asks nothing; gender, country and company are matched
    with [LIKE] between two [%]; debut_year is the year of the debut date;
    age_from and age_to bound the age on both sides, bounds included. *)
Definition like_criterion (criterion column : option string) : bool :=
  if truthy_str criterion then
    match column with
    | Some s => Sql.like ("%" +:+ str_of criterion +:+ "%") s
    | None => false
    end
  else true.

Definition year_criterion (criterion : option Z) (column : option datetime) : bool :=
  if truthy_int criterion then
    match column with
    | Some d => year d =? int_of criterion
    | None => false
    end
  else true.

Definition from_criterion (criterion column : option Z) : bool :=
  if truthy_int criterion then
    match column with
    | Some n => int_of criterion <=? n
    | None => false
    end
  else true.

Definition to_criterion (criterion column : option Z) : bool :=
  if truthy_int criterion then
    match column with
    | Some n => n <=? int_of criterion
    | None => false
    end
  else true.

Definition meets_criteria (gender country company : option string)
    (debut_year age_from age_to : option Z) (r : KpopIdol) : bool :=
  like_criterion gender (Gender_x r) && like_criterion country (Country r)
  && like_criterion company (Company r) && year_criterion debut_year (Debut r)
  && from_criterion age_from (age r) && to_criterion age_to (age r).

(** A letter, a digit, an underscore or a space. *)
Definition plain_char (c : ascii) : bool := Sql.is_word c || Ascii.eqb c " ".

Definition percent_char (c : ascii) : bool := Ascii.eqb c "%".

(** The modes of the lexer outside quotes and backquotes, where a [%] is
    not accepted. *)
Definition outside_quotes (m : Sql.mode) : bool :=
  match m with
  | Sql.MTop | Sql.MWord _ | Sql.MNumber _ | Sql.MQuote _ => true
  | _ => false
  end.

(** A column value that is there. *)
Definition not_null (v : sqlvalue) : bool :=
  match v with VNull => false | _ => true end.

(** A small table to evaluate the routes on. *)
Definition lisa : KpopIdol := {|
  Stage_Name := "Lisa"; Group := Some "BLACKPINK"; ig_name := Some "lalalalisa_m";
  Followers := Some 44600000; Gender_x := Some "Girl"; Full_Name := None;
  Korean_Name := None; K_Stage_Name := None; Date_of_Birth := None;
  Debut := Some {| year := 2016; month := 8; day := 8;
                   hour := 0; minute := 0; second := 0 |};
  Company := Some "YG"; Country := Some "Thailand"; Second_Country := None;
  Height := None; Weight := None; Birthplace := None; Other_Group := None;
  Former_Group := None; Gender_y := Some "F"; age := Some 24;
  year_career := Some 5
|}.

Definition jisoo : KpopIdol := {|
  Stage_Name := "Jisoo"; Group := Some "BLACKPINK"; ig_name := None;
  Followers := None; Gender_x := Some "Girl"; Full_Name := Some "Kim Jisoo";
  Korean_Name := None; K_Stage_Name := None; Date_of_Birth := None;
  Debut := Some {| year := 2016; month := 8; day := 8;
                   hour := 0; minute := 0; second := 0 |};
  Company := Some "YG"; Country := Some "South Korea"; Second_Country := None;
  Height := Some "162"; Weight := Some "45"; Birthplace := None;
  Other_Group := None; Former_Group := None; Gender_y := Some "F";
  age := Some 26; year_career := Some 5
|}.

Definition iu : KpopIdol := {|
  Stage_Name := "IU"; Group := None; ig_name := Some "dlwlrma";
  Followers := Some 21000000; Gender_x := Some "Girl"; Full_Name := None;
  Korean_Name := None; K_Stage_Name := None; Date_of_Birth := None;
  Debut := Some {| year := 2008; month := 9; day := 18;
                   hour := 0; minute := 0; second := 0 |};
  Company := Some "EDAM"; Country := Some "South Korea"; Second_Country := None;
  Height := Some "161"; Weight := None; Birthplace := None; Other_Group := None;
  Former_Group := None; Gender_y := None; age := Some 28;
  year_career := Some 13
|}.

Definition sample_db : Session :=
  {| table := [lisa; jisoo; iu]; executed := [] |}.

Definition empty_db : Session := {| table := []; executed := [] |}.

(** * Properties *)

(** ** Rows and mappings *)

Lemma assoc_Some_fst {A} k (l : list (string * A)) a :
  assoc k l = Some a → k ∈ l.*1.
Proof.
  induction l as [|[k' a'] l IH]; simpl; [done|].
  destruct (String.eqb_spec k k') as [->|Hne]; intros H.
  - apply elem_of_cons; left; reflexivity.
  - apply elem_of_cons; right; apply IH, H.
Qed.

Lemma lookup_row r c : row_mapping r !! c = column_value r c.
Proof.
  unfold row_mapping, column_value.
  generalize (row_values r). intros l. induction l as [|[k v] l IH]; simpl.
  - apply lookup_empty.
  - destruct (String.eqb_spec c k) as [->|Hne].
    + apply lookup_insert_eq.
    + rewrite lookup_insert_ne by congruence. exact IH.
Qed.

Lemma row_values_names r : (row_values r).*1 = column_names.
Proof. reflexivity. Qed.

Lemma column_names_public c : c ∈ column_names → startswith c "_" = false.
Proof.
  intros H.
  repeat (apply elem_of_cons in H as [->|H]; [reflexivity|]).
  by apply elem_of_nil in H.
Qed.

(** The comprehension over [__dict__] drops the ORM's state object and
    nothing else. *)
Lemma public_dict_row r : public_dict r = row_mapping r.
Proof.
  apply map_eq. intros k. unfold public_dict, instance_dict.
  rewrite map_lookup_filter.
  destruct (decide (k = "_sa_instance_state")) as [->|Hk].
  - rewrite lookup_insert_eq, lookup_row. reflexivity.
  - rewrite lookup_insert_ne by congruence.
    destruct (row_mapping r !! k) as [v|] eqn:E; [|reflexivity].
    simpl. rewrite option_guard_True; [reflexivity|].
    simpl. apply column_names_public. rewrite <- (row_values_names r).
    rewrite lookup_row in E. eapply assoc_Some_fst, E.
Qed.

Lemma column_value_Some r :
  Forall (λ c, is_Some (column_value r c)) column_names.
Proof. repeat constructor; eexists; reflexivity. Qed.

(** ** List all *)

(** C9. [GET /] never raises: on every session it returns status 200 with
    one mapping per table row, in table order (so an empty table gives an
    empty body); each mapping has every declared column as a key, holding
    the row's value for it (null when the row has none), and no other key. *)
Theorem get_all_idols_spec (db : Session) :
  ∃ body,
    (get_all_idols db).1 = Return body
    ∧ status (get_all_idols db).1 = 200
    ∧ length body = length (table db)
    ∧ Forall2 (λ idol (m : gmap string sqlvalue),
                 Forall (λ c, is_Some (m !! c) ∧ m !! c = column_value idol c)
                        column_names
                 ∧ dom m = list_to_set column_names)
              (table db) body.
Proof.
  exists (public_dict <$> table db). repeat split.
  - apply length_fmap.
  - apply Forall2_fmap_r, Forall_Forall2_diag, Forall_forall.
    intros idol _. cbv beta delta [compose]. rewrite public_dict_row. split.
    + eapply Forall_impl; [apply (column_value_Some idol)|].
      intros c Hc. simpl in Hc. rewrite lookup_row. done.
    + unfold row_mapping. rewrite dom_list_to_map_L, row_values_names. done.
Qed.

(** ** Get by stage name, get by group *)

Lemma holds_stage_name r n :
  Sql.holds ∅ (Sql.CCmp (Sql.OCol "Stage_Name") Sql.CEq (Sql.OLit (VStr n))) r
  = String.eqb (Stage_Name r) n.
Proof. unfold Sql.holds. simpl. by destruct (String.eqb _ _). Qed.

Lemma holds_group r n :
  Sql.holds ∅ (Sql.CCmp (Sql.OCol "Group") Sql.CEq (Sql.OLit (VStr n))) r
  = bool_decide (Group r = Some n).
Proof.
  unfold Sql.holds. simpl. destruct (Group r) as [g|]; simpl.
  - destruct (String.eqb_spec g n) as [->|Hne].
    + by rewrite bool_decide_eq_true_2.
    + rewrite bool_decide_eq_false_2; [done|congruence].
  - done.
Qed.

Lemma filter_ext_holds (f g : KpopIdol → bool) l :
  (∀ r, f r = g r) → List.filter f l = List.filter g l.
Proof. intros H. induction l as [|r l IH]; simpl; [done|]. by rewrite H, IH. Qed.

Lemma filter_none (f : KpopIdol → bool) l :
  (∀ r, r ∈ l → f r = false) → List.filter f l = [].
Proof.
  induction l as [|r l IH]; simpl; intros H; [done|].
  rewrite (H r) by (apply elem_of_cons; by left).
  apply IH. intros r' Hr'. apply H, elem_of_cons. by right.
Qed.

Lemma filter_all (f : KpopIdol → bool) l :
  (∀ r, r ∈ l → f r = true) → List.filter f l = l.
Proof.
  induction l as [|r l IH]; simpl; intros H; [done|].
  rewrite (H r) by (apply elem_of_cons; by left).
  f_equal. apply IH. intros r' Hr'. apply H, elem_of_cons. by right.
Qed.

Lemma filter_elem (f : KpopIdol → bool) l r :
  r ∈ List.filter f l ↔ r ∈ l ∧ f r = true.
Proof.
  rewrite !list_elem_of_In. apply List.filter_In.
Qed.

(** Under a key, the rows with a given stage name are at most one. *)
Lemma filter_key l n :
  NoDup (Stage_Name <$> l) → n ∈ Stage_Name <$> l →
  ∃ r, r ∈ l ∧ Stage_Name r = n
       ∧ List.filter (λ r, String.eqb (Stage_Name r) n) l = [r].
Proof.
  induction l as [|r l IH]; simpl; intros Hnd Hin.
  - by apply elem_of_nil in Hin.
  - apply NoDup_cons in Hnd as [Hr Hnd].
    destruct (String.eqb_spec (Stage_Name r) n) as [E|E].
    + exists r. split; [apply elem_of_cons; by left|]. split; [done|].
      f_equal. apply filter_none. intros r' Hr'.
      apply String.eqb_neq. intros E'. apply Hr. rewrite E, <- E'.
      by apply list_elem_of_fmap_2.
    + apply elem_of_cons in Hin as [Hin|Hin]; [congruence|].
      destruct (IH Hnd Hin) as (r' & ? & ? & ?).
      exists r'. split; [apply elem_of_cons; by right|]. done.
Qed.

Lemma filter_absent l n :
  n ∉ Stage_Name <$> l → List.filter (λ r, String.eqb (Stage_Name r) n) l = [].
Proof.
  intros H. apply filter_none. intros r Hr. apply String.eqb_neq.
  intros E. apply H. rewrite <- E. by apply list_elem_of_fmap_2.
Qed.

Lemma get_idol_by_stage_name_rows db stage_name :
  (get_idol_by_stage_name stage_name db).1 =
  match List.filter (λ r, String.eqb (Stage_Name r) stage_name) (table db) with
  | [] => HTTPException 404 "Idol not found."
  | idol => Return (public_dict <$> idol)
  end.
Proof.
  unfold get_idol_by_stage_name, bind, query_all, Sql.select. simpl.
  rewrite (filter_ext_holds _ _ _ (λ r, holds_stage_name r stage_name)).
  by destruct (List.filter _ _).
Qed.

(** C5. On a table whose stage names are unique (the primary key),
    [GET /idol/{stage_name}] returns exactly one row, the one with that
    stage name, when the name is in the table; it raises 404 "Idol not
    found." when the name is not; and it does not fail otherwise. *)
Theorem get_idol_by_stage_name_spec (db : Session) (stage_name : string) :
  NoDup (Stage_Name <$> table db) →
  (stage_name ∈ Stage_Name <$> table db →
     ∃ idol, idol ∈ table db ∧ Stage_Name idol = stage_name
       ∧ (get_idol_by_stage_name stage_name db).1 = Return [public_dict idol]
       ∧ public_dict idol !! "Stage_Name" = Some (VStr stage_name))
  ∧ (stage_name ∉ Stage_Name <$> table db →
     (get_idol_by_stage_name stage_name db).1
     = HTTPException 404 "Idol not found.")
  ∧ ((∀ body, (get_idol_by_stage_name stage_name db).1 ≠ Return body) →
     stage_name ∉ Stage_Name <$> table db).
Proof.
  intros Hkey. rewrite get_idol_by_stage_name_rows. repeat split.
  - intros Hin. destruct (filter_key _ _ Hkey Hin) as (idol & Hidol & Hname & ->).
    exists idol. repeat split; [done..|].
    rewrite public_dict_row, lookup_row. by rewrite <- Hname.
  - intros Hout. by rewrite filter_absent.
  - intros Hfail Hin.
    destruct (filter_key _ _ Hkey Hin) as (idol & _ & _ & E).
    rewrite E in Hfail. by eapply Hfail.
Qed.

Lemma get_idol_by_stage_name_witness :
  NoDup (Stage_Name <$> table sample_db)
  ∧ "Lisa" ∈ Stage_Name <$> table sample_db
  ∧ ∃ idol, idol ∈ table sample_db ∧ Stage_Name idol = "Lisa"
      ∧ (get_idol_by_stage_name "Lisa" sample_db).1 = Return [public_dict idol]
      ∧ public_dict idol !! "Stage_Name" = Some (VStr "Lisa").
Proof.
  assert (Hkey : NoDup (Stage_Name <$> table sample_db)).
  { apply (bool_decide_unpack _). vm_compute. exact I. }
  assert (Hin : "Lisa" ∈ Stage_Name <$> table sample_db).
  { apply elem_of_cons. by left. }
  split; [exact Hkey|]. split; [exact Hin|].
  exact (proj1 (get_idol_by_stage_name_spec sample_db "Lisa" Hkey) Hin).
Defined.

Lemma get_idols_by_group_rows db group_name :
  (get_idols_by_group group_name db).1 =
  match List.filter (λ r, bool_decide (Group r = Some group_name)) (table db) with
  | [] => HTTPException 404 "Group not found or has no members in the dataset."
  | idols => Return (public_dict <$> idols)
  end.
Proof.
  unfold get_idols_by_group, bind, query_all, Sql.select. simpl.
  rewrite (filter_ext_holds _ _ _ (λ r, holds_group r group_name)).
  by destruct (List.filter _ _).
Qed.

(** C6. [GET /group/{group_name}]: when some row of the table has that
    group, the body is not empty, it is made of the rows of that group, and
    every mapping in it has the requested name under "Group"; when no row
    has it, the route raises 404 "Group not found or has no members in the
    dataset." *)
Theorem get_idols_by_group_spec (db : Session) (group_name : string) :
  ((∃ idol, idol ∈ table db ∧ Group idol = Some group_name) →
     ∃ body, (get_idols_by_group group_name db).1 = Return body
       ∧ body ≠ []
       ∧ body = public_dict <$>
                  List.filter (λ r, bool_decide (Group r = Some group_name)) (table db)
       ∧ Forall (λ m : gmap string sqlvalue, m !! "Group" = Some (VStr group_name)) body)
  ∧ ((¬ ∃ idol, idol ∈ table db ∧ Group idol = Some group_name) →
     (get_idols_by_group group_name db).1
     = HTTPException 404 "Group not found or has no members in the dataset.").
Proof.
  rewrite get_idols_by_group_rows. split.
  - intros (idol & Hin & Hg).
    assert (Hm : idol ∈ List.filter (λ r, bool_decide (Group r = Some group_name)) (table db)).
    { apply filter_elem. split; [done|]. by apply bool_decide_eq_true_2. }
    destruct (List.filter _ _) as [|r l] eqn:E; [by apply elem_of_nil in Hm|].
    eexists. split; [reflexivity|]. split; [done|]. split; [done|].
    apply Forall_fmap, Forall_forall. intros r' Hr'. cbv beta delta [compose].
    rewrite <- E in Hr'. apply filter_elem in Hr' as [_ Hr'].
    apply bool_decide_eq_true_1 in Hr'.
    rewrite public_dict_row, lookup_row. unfold column_value. simpl.
    by rewrite Hr'.
  - intros Hno. rewrite filter_none; [done|].
    intros r Hr. apply bool_decide_eq_false_2. intros Hg. apply Hno. eauto.
Qed.

Lemma get_idols_by_group_witness :
  (∃ idol, idol ∈ table sample_db ∧ Group idol = Some "BLACKPINK")
  ∧ ∃ body, (get_idols_by_group "BLACKPINK" sample_db).1 = Return body
      ∧ body ≠ []
      ∧ body = public_dict <$>
                 List.filter (λ r, bool_decide (Group r = Some "BLACKPINK"))
                             (table sample_db)
      ∧ Forall (λ m : gmap string sqlvalue, m !! "Group" = Some (VStr "BLACKPINK")) body.
Proof.
  assert (H : ∃ idol, idol ∈ table sample_db ∧ Group idol = Some "BLACKPINK").
  { exists lisa. split; [apply elem_of_cons; by left|reflexivity]. }
  split; [exact H|].
  exact (proj1 (get_idols_by_group_spec sample_db "BLACKPINK") H).
Defined.

(** ** Filter: the statement that is built *)

Ltac split_criteria :=
  unfold filter_idols_where, filter_clauses;
  repeat match goal with
         | |- context [truthy_str ?o] => destruct (truthy_str o)
         | |- context [truthy_int ?o] => destruct (truthy_int o)
         end.

Section FilterQuery.
Variables gender country company : option string.
Variables debut_year age_from age_to : option Z.

Let q := filter_idols_where gender country company debut_year age_from age_to.

Lemma filter_names_no_height : in_list "Height" (keys q.2) = false.
Proof. subst q. split_criteria; vm_compute; reflexivity. Qed.

Lemma filter_names_no_weight : in_list "Weight" (keys q.2) = false.
Proof. subst q. split_criteria; vm_compute; reflexivity. Qed.

Lemma filter_names_test : names_height_or_weight q.2 = false.
Proof. subst q. split_criteria; vm_compute; reflexivity. Qed.

Lemma filter_idols_query_where :
  filter_idols_query gender country company debut_year age_from age_to = q.
Proof.
  unfold filter_idols_query, relax_height_weight.
  fold q. by rewrite filter_names_test.
Qed.

Lemma filter_text_no_or :
  contains q.1 " OR (`Height` IS NULL OR `Weight` IS NULL)" = false.
Proof. subst q. split_criteria; vm_compute; reflexivity. Qed.
End FilterQuery.

(** C3. Whatever the six inputs, no parameter is named "Height" or
    "Weight": the test that guards the OR-clause is false, the statement
    text is the one built from the criteria alone, and the OR-clause is not
    part of it. *)
Theorem filter_or_clause_dead
    (gender country company : option string)
    (debut_year age_from age_to : option Z) :
  let q := filter_idols_where gender country company debut_year age_from age_to in
  in_list "Height" (keys q.2) = false
  ∧ in_list "Weight" (keys q.2) = false
  ∧ names_height_or_weight q.2 = false
  ∧ filter_idols_query gender country company debut_year age_from age_to = q
  ∧ contains
      (filter_idols_query gender country company debut_year age_from age_to).1
      " OR (`Height` IS NULL OR `Weight` IS NULL)" = false.
Proof.
  intros q. rewrite filter_idols_query_where.
  split; [apply filter_names_no_height|].
  split; [apply filter_names_no_weight|].
  split; [apply filter_names_test|].
  split; [reflexivity|apply filter_text_no_or].
Qed.

(** C10. In [filter_idols] an empty string for gender, country or company,
    and a zero for debut_year, age_from or age_to, build the same statement
    and parameters as leaving that input out, and the handler behaves the
    same on every session: no condition is added for it. *)
Theorem filter_falsy_is_absent
    (gender country company : option string)
    (debut_year age_from age_to : option Z) :
  (filter_idols_query (Some EmptyString) country company debut_year age_from age_to
   = filter_idols_query None country company debut_year age_from age_to
   ∧ filter_idols (Some EmptyString) country company debut_year age_from age_to
     = filter_idols None country company debut_year age_from age_to)
  ∧ (filter_idols_query gender (Some EmptyString) company debut_year age_from age_to
     = filter_idols_query gender None company debut_year age_from age_to
     ∧ filter_idols gender (Some EmptyString) company debut_year age_from age_to
       = filter_idols gender None company debut_year age_from age_to)
  ∧ (filter_idols_query gender country (Some EmptyString) debut_year age_from age_to
     = filter_idols_query gender country None debut_year age_from age_to
     ∧ filter_idols gender country (Some EmptyString) debut_year age_from age_to
       = filter_idols gender country None debut_year age_from age_to)
  ∧ (filter_idols_query gender country company (Some 0) age_from age_to
     = filter_idols_query gender country company None age_from age_to
     ∧ filter_idols gender country company (Some 0) age_from age_to
       = filter_idols gender country company None age_from age_to)
  ∧ (filter_idols_query gender country company debut_year (Some 0) age_to
     = filter_idols_query gender country company debut_year None age_to
     ∧ filter_idols gender country company debut_year (Some 0) age_to
       = filter_idols gender country company debut_year None age_to)
  ∧ (filter_idols_query gender country company debut_year age_from (Some 0)
     = filter_idols_query gender country company debut_year age_from None
     ∧ filter_idols gender country company debut_year age_from (Some 0)
       = filter_idols gender country company debut_year age_from None).
Proof.
  unfold filter_idols, filter_idols_query, filter_idols_where.
  change (truthy_str (Some EmptyString)) with false.
  change (truthy_str None) with false.
  change (truthy_int (Some 0)) with false.
  change (truthy_int None) with false.
  repeat split.
Qed.

(** ** Filter: what the statement means *)

(** The text built from the criteria reads as [1=1] joined by [AND] with
    the clause of every criterion that is true. *)
Lemma read_filter gender country company debut_year age_from age_to :
  let q := filter_idols_where gender country company debut_year age_from age_to in
  Sql.read q.1 q.2
  = Some (filter_condition
            (filter_clauses gender country company debut_year age_from age_to)).
Proof.
  split_criteria; vm_compute; reflexivity.
Qed.

(** *** LIKE with a literal pattern between two [%] is substring search *)

Lemma like_percent q s :
  Sql.like (String "%" q) s
  = Sql.like q s || match s with
                    | EmptyString => false
                    | String _ s' => Sql.like (String "%" q) s'
                    end.
Proof. destruct s; reflexivity. Qed.

Lemma like_literal c q s :
  literal_char c = true →
  Sql.like (String c q) s
  = match s with
    | EmptyString => false
    | String d s' => Ascii.eqb c d && Sql.like q s'
    end.
Proof.
  unfold literal_char. intros H. apply negb_true_iff in H.
  apply orb_false_iff in H as [H H3]. apply orb_false_iff in H as [H1 H2].
  simpl. rewrite H1, H2, H3. reflexivity.
Qed.

Lemma like_any_all s : Sql.like "%" s = true.
Proof.
  induction s as [|c s IH]; [reflexivity|].
  rewrite like_percent. rewrite IH. apply orb_true_r.
Qed.

Lemma like_prefix g s :
  all_chars literal_char g = true →
  Sql.like (g +:+ "%") s = String.prefix g s.
Proof.
  revert s. induction g as [|c g IH]; intros s Hg.
  - change (EmptyString +:+ "%") with "%". rewrite like_any_all. by destruct s.
  - simpl in Hg. apply andb_true_iff in Hg as [Hc Hg].
    change (String c g +:+ "%") with (String c (g +:+ "%")).
    rewrite like_literal by done.
    destruct s as [|d s]; [reflexivity|]. simpl.
    rewrite IH by done.
    destruct (Ascii.eqb_spec c d) as [->|Hne]; simpl.
    + destruct (ascii_dec d d); [reflexivity|congruence].
    + destruct (ascii_dec c d); [congruence|reflexivity].
Qed.

Lemma like_contains g s :
  all_chars literal_char g = true →
  Sql.like ("%" +:+ g +:+ "%") s = contains s g.
Proof.
  intros Hg. induction s as [|c s IH].
  - change ("%" +:+ g +:+ "%") with (String "%" (g +:+ "%")).
    rewrite like_percent, like_prefix by done. reflexivity.
  - change ("%" +:+ g +:+ "%") with (String "%" (g +:+ "%")) in *.
    rewrite like_percent, like_prefix, IH by done. reflexivity.
Qed.

(** [contains] is the existence of a split around the substring. *)
Lemma prefix_app g s : String.prefix g s = true ↔ ∃ t, s = g +:+ t.
Proof.
  revert s. induction g as [|c g IH]; intros s.
  - split; [intros _; exists s; reflexivity|by destruct s].
  - destruct s as [|d s]; simpl.
    + split; [done|intros [t Ht]; discriminate].
    + destruct (ascii_dec c d) as [->|Hne].
      * rewrite IH. split; intros [t Ht]; exists t.
        -- simpl. by rewrite Ht.
        -- simpl in Ht. by injection Ht.
      * split; [done|intros [t Ht]; simpl in Ht; injection Ht; done].
Qed.

Lemma contains_app s g :
  contains s g = true ↔ ∃ s1 s2, s = s1 +:+ g +:+ s2.
Proof.
  induction s as [|c s IH].
  - change (contains EmptyString g) with (String.prefix g EmptyString || false).
    rewrite orb_false_r, prefix_app. split.
    + intros [t Ht]. exists EmptyString, t. done.
    + intros (s1 & s2 & H). destruct s1; [by exists s2|discriminate].
  - change (contains (String c s) g)
      with (String.prefix g (String c s) || contains s g).
    rewrite orb_true_iff, prefix_app, IH. split.
    + intros [[t Ht]|(s1 & s2 & H)].
      * exists EmptyString, t. done.
      * exists (String c s1), s2. simpl. by rewrite H.
    + intros (s1 & s2 & H). destruct s1 as [|d s1]; simpl in H.
      * left. by exists s2.
      * right. exists s1, s2. by injection H.
Qed.

(** *** The condition of the filter statement, row by row *)

Lemma holds_and params a b r :
  Sql.holds params (Sql.CAnd a b) r = Sql.holds params a r && Sql.holds params b r.
Proof.
  unfold Sql.holds. simpl.
  by destruct (Sql.eval params r a) as [[]|], (Sql.eval params r b) as [[]|].
Qed.

Lemma holds_fold_and params cs base r :
  Sql.holds params (fold_left Sql.CAnd cs base) r
  = Sql.holds params base r && forallb (λ c, Sql.holds params c r) cs.
Proof.
  revert base. induction cs as [|c cs IH]; intros base; simpl.
  - by rewrite andb_true_r.
  - by rewrite IH, holds_and, andb_assoc.
Qed.

Lemma holds_filter_condition params cs r :
  Sql.holds params (filter_condition cs) r = forallb (λ c, Sql.holds params c r) cs.
Proof. unfold filter_condition. by rewrite holds_fold_and. Qed.

Lemma forallb_if {A} (f : A → bool) (b : bool) (x : A) :
  forallb f (if b then [x] else []) = if b then f x else true.
Proof. destruct b; simpl; [apply andb_true_r|done]. Qed.

Section FilterParams.
Variables gender country company : option string.
Variables debut_year age_from age_to : option Z.

Let q := filter_idols_where gender country company debut_year age_from age_to.

Lemma filter_param_gender :
  q.2 !! "gender"
  = if truthy_str gender then Some (VStr ("%" +:+ str_of gender +:+ "%")) else None.
Proof. subst q. split_criteria; vm_compute; reflexivity. Qed.

Lemma filter_param_country :
  q.2 !! "country"
  = if truthy_str country then Some (VStr ("%" +:+ str_of country +:+ "%")) else None.
Proof. subst q. split_criteria; vm_compute; reflexivity. Qed.

Lemma filter_param_company :
  q.2 !! "company"
  = if truthy_str company then Some (VStr ("%" +:+ str_of company +:+ "%")) else None.
Proof. subst q. split_criteria; vm_compute; reflexivity. Qed.

Lemma filter_param_debut_year :
  q.2 !! "debut_year"
  = if truthy_int debut_year then Some (VInt (int_of debut_year)) else None.
Proof. subst q. split_criteria; vm_compute; reflexivity. Qed.

Lemma filter_param_age_from :
  q.2 !! "age_from"
  = if truthy_int age_from then Some (VInt (int_of age_from)) else None.
Proof. subst q. split_criteria; vm_compute; reflexivity. Qed.

Lemma filter_param_age_to :
  q.2 !! "age_to"
  = if truthy_int age_to then Some (VInt (int_of age_to)) else None.
Proof. subst q. split_criteria; vm_compute; reflexivity. Qed.

(** The condition read from the statement selects the rows that meet the
    criteria. *)
Lemma holds_filter r :
  Sql.holds q.2
    (filter_condition
       (filter_clauses gender country company debut_year age_from age_to)) r
  = meets_criteria gender country company debut_year age_from age_to r.
Proof.
  rewrite holds_filter_condition. unfold filter_clauses, meets_criteria.
  rewrite !forallb_app, !forallb_if, !andb_assoc.
  unfold Sql.holds, Sql.eval, Sql.eval_operand.
  rewrite filter_param_gender, filter_param_country, filter_param_company,
    filter_param_debut_year, filter_param_age_from, filter_param_age_to.
  unfold like_criterion, year_criterion, from_criterion, to_criterion.
  repeat f_equal.
  - destruct (truthy_str gender); [|done].
    change (column_value r "Gender_x") with (Some (str_value (Gender_x r))).
    destruct (Gender_x r); simpl; [by case_match|done].
  - destruct (truthy_str country); [|done].
    change (column_value r "Country") with (Some (str_value (Country r))).
    destruct (Country r); simpl; [by case_match|done].
  - destruct (truthy_str company); [|done].
    change (column_value r "Company") with (Some (str_value (Company r))).
    destruct (Company r); simpl; [by case_match|done].
  - destruct (truthy_int debut_year); [|done].
    change (column_value r "Debut") with (Some (date_value (Debut r))).
    destruct (Debut r); simpl; [by case_match|done].
  - destruct (truthy_int age_from); [|done].
    change (column_value r "age") with (Some (int_value (age r))).
    destruct (age r); simpl; [by case_match|done].
  - destruct (truthy_int age_to); [|done].
    change (column_value r "age") with (Some (int_value (age r))).
    destruct (age r); simpl; [by case_match|done].
Qed.
End FilterParams.

(** ** Filter: the route *)

Lemma dict_fmap (l : list (gmap string sqlvalue)) : dict <$> l = l.
Proof. apply list_fmap_id. Qed.

(** [GET /filter/] returns the rows that meet the criteria, and raises 404
    when there is none. *)
Lemma filter_idols_rows gender country company debut_year age_from age_to db :
  (filter_idols gender country company debut_year age_from age_to db).1 =
  match List.filter
          (meets_criteria gender country company debut_year age_from age_to)
          (table db) with
  | [] => HTTPException 404 "No idols found matching the filter criteria."
  | rows => Return (row_mapping <$> rows)
  end.
Proof.
  unfold filter_idols. rewrite filter_idols_query_where.
  pose proof (read_filter gender country company debut_year age_from age_to) as Hread.
  pose proof (holds_filter gender country company debut_year age_from age_to) as Hholds.
  cbv zeta in Hread.
  destruct (filter_idols_where _ _ _ _ _ _) as [query_str params].
  unfold bind, execute. cbn [fst snd] in *. rewrite Hread.
  unfold Sql.select. rewrite (filter_ext_holds _ _ _ Hholds).
  destruct (List.filter _ _) as [|r rows]; [reflexivity|].
  cbn. by rewrite dict_fmap.
Qed.

Lemma meets_no_criteria r : meets_criteria None None None None None None r = true.
Proof. reflexivity. Qed.

(** C2 as stated fails on the empty table: with no criteria the route
    raises 404 there instead of returning the (empty) table with 200. *)
Lemma filter_idols_no_criteria_empty_table :
  (filter_idols None None None None None None empty_db).1
  = HTTPException 404 "No idols found matching the filter criteria."
  ∧ ¬ ∃ body,
        (filter_idols None None None None None None empty_db).1 = Return body
        ∧ length body = length (table empty_db).
Proof.
  rewrite filter_idols_rows. split; [reflexivity|].
  intros (body & H & _). discriminate H.
Qed.

(** C2, amended. With no criteria [GET /filter/] returns the whole table,
    one mapping per row and status 200, on every table that has a row; on
    the empty table it raises 404. *)
Theorem filter_idols_no_criteria (db : Session) :
  (table db ≠ [] →
     (filter_idols None None None None None None db).1
     = Return (row_mapping <$> table db)
     ∧ status (filter_idols None None None None None None db).1 = 200
     ∧ length (row_mapping <$> table db) = length (table db))
  ∧ (table db = [] →
     (filter_idols None None None None None None db).1
     = HTTPException 404 "No idols found matching the filter criteria.").
Proof.
  rewrite filter_idols_rows.
  rewrite (filter_all _ _ (λ r _, meets_no_criteria r)).
  split.
  - intros Hne. destruct (table db) as [|r rows]; [done|].
    split; [done|]. split; [done|]. apply length_fmap.
  - by intros ->.
Qed.

Lemma filter_idols_no_criteria_witness :
  table sample_db ≠ []
  ∧ (filter_idols None None None None None None sample_db).1
    = Return (row_mapping <$> table sample_db)
  ∧ status (filter_idols None None None None None None sample_db).1 = 200
  ∧ length (row_mapping <$> table sample_db) = length (table sample_db).
Proof.
  assert (H : table sample_db ≠ []) by discriminate.
  split; [exact H|].
  exact (proj1 (filter_idols_no_criteria sample_db) H).
Defined.

Lemma like_criterion_true g column :
  g ≠ EmptyString → like_criterion (Some g) column = true →
  ∃ s, column = Some s ∧ Sql.like ("%" +:+ g +:+ "%") s = true.
Proof.
  unfold like_criterion. destruct g as [|c g]; [done|]. intros _. simpl truthy_str.
  cbv iota. destruct column as [s|]; [|done]. intros H. by exists s.
Qed.

Lemma truthy_int_nonzero y : y ≠ 0 → truthy_int (Some y) = true.
Proof. intros H. simpl. apply negb_true_iff. by apply Z.eqb_neq. Qed.

(** C4 as stated fails when a criterion is supplied as zero: with
    [age_to=0] the route returns Lisa, whose age is 24. *)
Lemma filter_idols_age_to_zero :
  ∃ body,
    (filter_idols None None None None None (Some 0) sample_db).1 = Return body
    ∧ row_mapping lisa ∈ body
    ∧ row_mapping lisa !! "age" = Some (VInt 24)
    ∧ ¬ 24 ≤ 0.
Proof.
  rewrite filter_idols_rows. eexists. split; [reflexivity|].
  split; [apply elem_of_cons; by left|].
  split; [by rewrite lookup_row|lia].
Qed.

(** C4, amended. Every mapping that [GET /filter/] returns is a row of the
    table that meets every criterion supplied with a non-empty string or a
    non-zero number: its Gender_x, Country and Company match the pattern
    [%criterion%] under [LIKE] (which is to contain the criterion when the
    criterion has no [%], [_] or backslash), the year of its Debut is
    debut_year, and its age is at least age_from and at most age_to. *)
Theorem filter_idols_criteria
    (gender country company : option string)
    (debut_year age_from age_to : option Z)
    (db : Session) (body : list (gmap string sqlvalue)) (m : gmap string sqlvalue) :
  (filter_idols gender country company debut_year age_from age_to db).1
  = Return body →
  m ∈ body →
  ∃ idol, idol ∈ table db ∧ m = row_mapping idol
    ∧ (∀ g, gender = Some g → g ≠ EmptyString →
         ∃ s, m !! "Gender_x" = Some (VStr s)
              ∧ Sql.like ("%" +:+ g +:+ "%") s = true
              ∧ (all_chars literal_char g = true → contains s g = true))
    ∧ (∀ g, country = Some g → g ≠ EmptyString →
         ∃ s, m !! "Country" = Some (VStr s)
              ∧ Sql.like ("%" +:+ g +:+ "%") s = true
              ∧ (all_chars literal_char g = true → contains s g = true))
    ∧ (∀ g, company = Some g → g ≠ EmptyString →
         ∃ s, m !! "Company" = Some (VStr s)
              ∧ Sql.like ("%" +:+ g +:+ "%") s = true
              ∧ (all_chars literal_char g = true → contains s g = true))
    ∧ (∀ y, debut_year = Some y → y ≠ 0 →
         ∃ d, m !! "Debut" = Some (VDate d) ∧ year d = y)
    ∧ (∀ a, age_from = Some a → a ≠ 0 →
         ∃ n, m !! "age" = Some (VInt n) ∧ a ≤ n)
    ∧ (∀ a, age_to = Some a → a ≠ 0 →
         ∃ n, m !! "age" = Some (VInt n) ∧ n ≤ a).
Proof.
  rewrite filter_idols_rows. intros Hbody Hm.
  assert (∃ idol, idol ∈ table db ∧ m = row_mapping idol ∧
            meets_criteria gender country company debut_year age_from age_to idol
            = true) as (idol & Hin & -> & Hmeets).
  { destruct (List.filter _ _) as [|r rows] eqn:E; [discriminate|].
    injection Hbody as <-.
    change (m ∈ row_mapping <$> r :: rows) in Hm.
    apply list_elem_of_fmap in Hm as (idol & -> & Hidol).
    rewrite <- E in Hidol. apply filter_elem in Hidol as [??]. by exists idol. }
  exists idol. split; [done|]. split; [done|].
  unfold meets_criteria in Hmeets. rewrite !andb_true_iff in Hmeets.
  destruct Hmeets as (((((Hg & Hc) & Hco) & Hy) & Hf) & Ht).
  rewrite !lookup_row.
  repeat split.
  - intros g -> Hne. destruct (like_criterion_true _ _ Hne Hg) as (s & Hs & Hlike).
    exists s. unfold column_value. simpl. rewrite Hs. split; [done|]. split; [done|].
    intros Hlit. by rewrite <- like_contains.
  - intros g -> Hne. destruct (like_criterion_true _ _ Hne Hc) as (s & Hs & Hlike).
    exists s. unfold column_value. simpl. rewrite Hs. split; [done|]. split; [done|].
    intros Hlit. by rewrite <- like_contains.
  - intros g -> Hne. destruct (like_criterion_true _ _ Hne Hco) as (s & Hs & Hlike).
    exists s. unfold column_value. simpl. rewrite Hs. split; [done|]. split; [done|].
    intros Hlit. by rewrite <- like_contains.
  - intros y -> Hne. unfold year_criterion in Hy.
    rewrite truthy_int_nonzero in Hy by done.
    destruct (Debut idol) as [d|] eqn:Hd; [|done].
    exists d. split; [unfold column_value; simpl; by rewrite Hd|].
    by apply Z.eqb_eq.
  - intros a -> Hne. unfold from_criterion in Hf.
    rewrite truthy_int_nonzero in Hf by done.
    destruct (age idol) as [n|] eqn:Hn; [|done].
    exists n. split; [unfold column_value; simpl; by rewrite Hn|].
    by apply Z.leb_le.
  - intros a -> Hne. unfold to_criterion in Ht.
    rewrite truthy_int_nonzero in Ht by done.
    destruct (age idol) as [n|] eqn:Hn; [|done].
    exists n. split; [unfold column_value; simpl; by rewrite Hn|].
    by apply Z.leb_le.
Qed.

Lemma filter_idols_criteria_witness :
  (filter_idols (Some "Girl") None None (Some 2016) (Some 20) (Some 25) sample_db).1
  = Return [row_mapping lisa]
  ∧ row_mapping lisa ∈ [row_mapping lisa]
  ∧ ∃ idol, idol ∈ table sample_db ∧ row_mapping lisa = row_mapping idol
      ∧ (∃ s, row_mapping lisa !! "Gender_x" = Some (VStr s) ∧ contains s "Girl" = true)
      ∧ (∃ d, row_mapping lisa !! "Debut" = Some (VDate d) ∧ year d = 2016)
      ∧ (∃ n, row_mapping lisa !! "age" = Some (VInt n) ∧ 20 ≤ n)
      ∧ (∃ n, row_mapping lisa !! "age" = Some (VInt n) ∧ n ≤ 25).
Proof.
  assert (H1 : (filter_idols (Some "Girl") None None (Some 2016) (Some 20)
                  (Some 25) sample_db).1 = Return [row_mapping lisa]).
  { rewrite filter_idols_rows. reflexivity. }
  assert (H2 : row_mapping lisa ∈ [row_mapping lisa]).
  { apply elem_of_cons. by left. }
  split; [exact H1|]. split; [exact H2|].
  destruct (filter_idols_criteria _ _ _ _ _ _ _ _ _ H1 H2)
    as (idol & Hin & Heq & Hg & _ & _ & Hy & Hf & Ht).
  exists idol. split; [exact Hin|]. split; [exact Heq|].
  split.
  { destruct (Hg "Girl" eq_refl) as (s & Hs & _ & Hc); [discriminate|].
    exists s. split; [exact Hs|]. apply Hc. reflexivity. }
  split; [apply (Hy 2016 eq_refl); discriminate|].
  split; [apply (Hf 20 eq_refl); discriminate|].
  apply (Ht 25 eq_refl); discriminate.
Defined.

(** ** Search: reading a statement with a spliced value *)

Lemma append_cons x (a b : string) : String x a +:+ b = String x (a +:+ b).
Proof. reflexivity. Qed.

Lemma append_assoc (a b c : string) : (a +:+ b) +:+ c = a +:+ b +:+ c.
Proof. induction a as [|x a IH]; [done|]. by rewrite !append_cons, IH. Qed.

Lemma append_empty_r (a : string) : a +:+ EmptyString = a.
Proof. induction a as [|x a IH]; [done|]. by rewrite append_cons, IH. Qed.

Lemma all_chars_app P a b :
  all_chars P (a +:+ b) = all_chars P a && all_chars P b.
Proof.
  induction a as [|x a IH]; [done|].
  rewrite append_cons. simpl. by rewrite IH, andb_assoc.
Qed.

Lemma all_chars_impl (P Q : ascii → bool) s :
  (∀ c, P c = true → Q c = true) → all_chars P s = true → all_chars Q s = true.
Proof.
  intros HPQ. induction s as [|c s IH]; simpl; [done|].
  intros [Hc Hs]%andb_true_iff. by rewrite HPQ, IH.
Qed.

(** A text without a colon has no bind marker. *)
Lemma scan_markers_no_colon blocked s :
  all_chars not_colon s = true → Sql.scan_markers blocked s = [].
Proof.
  revert blocked. induction s as [|c s IH]; intros blocked; simpl; [done|].
  intros [Hc Hs]%andb_true_iff. unfold not_colon in Hc.
  apply negb_true_iff in Hc. rewrite Hc. simpl. by apply IH.
Qed.

Lemma lex_run_app st a b :
  Sql.lex_run st (a +:+ b) = Sql.lex_run st a ≫= λ st', Sql.lex_run st' b.
Proof.
  revert st. induction a as [|c a IH]; intros st; [done|].
  rewrite append_cons. simpl.
  destruct (Sql.step st c) as [st'|]; simpl; [apply IH|done].
Qed.

(** Inside a literal, inert characters are taken as they are. *)
Lemma lex_run_literal acc out v :
  all_chars inert_char v = true →
  Sql.lex_run (Sql.MLiteral acc, out) v = Some (Sql.MLiteral (acc +:+ v), out).
Proof.
  revert acc. induction v as [|c v IH]; intros acc; simpl.
  - by rewrite append_empty_r.
  - intros [Hc Hv]%andb_true_iff. unfold inert_char in Hc.
    apply negb_true_iff in Hc.
    apply orb_false_iff in Hc as [Hc H3]. apply orb_false_iff in Hc as [H1 H2].
    rewrite H1, H2. simpl. rewrite IH by done.
    unfold Sql.snoc. by rewrite append_assoc, append_cons.
Qed.

(** Between backquotes, every character but the backquote is taken. *)
Lemma lex_run_quoted acc out f :
  all_chars not_backquote f = true →
  Sql.lex_run (Sql.MQuoted acc, out) f = Some (Sql.MQuoted (acc +:+ f), out).
Proof.
  revert acc. induction f as [|c f IH]; intros acc; simpl.
  - by rewrite append_empty_r.
  - intros [Hc Hf]%andb_true_iff. unfold not_backquote in Hc.
    apply negb_true_iff in Hc. rewrite Hc. simpl. rewrite IH by done.
    unfold Sql.snoc. by rewrite append_assoc, append_cons.
Qed.

Lemma in_list_elem x l : in_list x l = true ↔ x ∈ l.
Proof.
  unfold in_list. rewrite existsb_exists. split.
  - intros (y & Hy & E). apply String.eqb_eq in E as ->. by apply list_elem_of_In.
  - intros H. exists x. split; [by apply list_elem_of_In|apply String.eqb_refl].
Qed.

Ltac each_column H :=
  apply in_list_elem in H;
  repeat (apply elem_of_cons in H as [->|H]; [|]);
  [..|by apply elem_of_nil in H].

Lemma column_no_backquote field :
  in_list field column_names = true → all_chars not_backquote field = true.
Proof. intros H. each_column H; reflexivity. Qed.

Lemma column_no_colon field :
  in_list field column_names = true → all_chars not_colon field = true.
Proof. intros H. each_column H; reflexivity. Qed.

Lemma column_has_type field :
  in_list field column_names = true → ∃ t, column_type field = Some t.
Proof. intros H. each_column H; eexists; reflexivity. Qed.

Lemma lex_select :
  Sql.lex_run (Sql.MTop, []) "SELECT * FROM kpop_idol_followers WHERE `"
  = Some (Sql.MQuoted EmptyString, select_tokens).
Proof. vm_compute. reflexivity. Qed.

Lemma lex_like acc out :
  Sql.lex_run (Sql.MQuoted acc, out) "` LIKE '%"
  = Some (Sql.MLiteral "%", (out ++ [Sql.TQuoted acc]) ++ [Sql.TWord "LIKE"]).
Proof. reflexivity. Qed.

Lemma lex_close acc out :
  Sql.lex_run (Sql.MLiteral acc, out) "%'" = Some (Sql.MQuote (acc +:+ "%"), out).
Proof. reflexivity. Qed.

Lemma lex_or acc out :
  Sql.lex_run (Sql.MLiteral acc, out) "%' OR `"
  = Some (Sql.MQuoted EmptyString,
          (out ++ [Sql.TLiteral (acc +:+ "%")]) ++ [Sql.TWord "OR"]).
Proof. reflexivity. Qed.

Lemma lex_is_null acc out :
  Sql.lex_run (Sql.MQuoted acc, out) "` IS NULL"
  = Some (Sql.MWord "NULL", (out ++ [Sql.TQuoted acc]) ++ [Sql.TWord "IS"]).
Proof. reflexivity. Qed.

Ltac lex_piece lem :=
  rewrite lex_run_app, lem; cbn [mbind option_bind].

(** The tokens of the statement of [search_idols] for a field other than
    Height and Weight. *)
Lemma lex_search_plain field value :
  all_chars not_backquote field = true →
  all_chars inert_char value = true →
  Sql.lex ("SELECT * FROM kpop_idol_followers WHERE `" +:+ field +:+ "` LIKE '%"
           +:+ value +:+ "%'")
  = Some (select_tokens ++
          [Sql.TQuoted field; Sql.TWord "LIKE";
           Sql.TLiteral ("%" +:+ value +:+ "%")]).
Proof.
  intros Hf Hv. unfold Sql.lex.
  lex_piece lex_select.
  lex_piece (lex_run_quoted EmptyString select_tokens field Hf).
  lex_piece lex_like.
  rewrite lex_run_app, (lex_run_literal _ _ value Hv). cbn [mbind option_bind].
  rewrite lex_close. cbn [mbind option_bind Sql.finish].
  rewrite append_assoc. reflexivity.
Qed.

Lemma lex_search_relaxed field value :
  all_chars not_backquote field = true →
  all_chars inert_char value = true →
  Sql.lex ("SELECT * FROM kpop_idol_followers WHERE `" +:+ field +:+ "` LIKE '%"
           +:+ value +:+ "%' OR `" +:+ field +:+ "` IS NULL")
  = Some (select_tokens ++
          [Sql.TQuoted field; Sql.TWord "LIKE";
           Sql.TLiteral ("%" +:+ value +:+ "%"); Sql.TWord "OR";
           Sql.TQuoted field; Sql.TWord "IS"; Sql.TWord "NULL"]).
Proof.
  intros Hf Hv. unfold Sql.lex.
  lex_piece lex_select.
  lex_piece (lex_run_quoted EmptyString select_tokens field Hf).
  lex_piece lex_like.
  rewrite lex_run_app, (lex_run_literal _ _ value Hv). cbn [mbind option_bind].
  lex_piece lex_or.
  rewrite lex_run_app, (lex_run_quoted _ _ field Hf). cbn [mbind option_bind].
  rewrite lex_is_null. cbn [mbind option_bind Sql.finish].
  rewrite append_assoc. reflexivity.
Qed.

Lemma parse_search_plain f p :
  Sql.parse (select_tokens ++ [Sql.TQuoted f; Sql.TWord "LIKE"; Sql.TLiteral p])
  = Some (Sql.CCmp (Sql.OCol f) Sql.CLike (Sql.OLit (VStr p))).
Proof. reflexivity. Qed.

Lemma parse_search_relaxed f p :
  Sql.parse (select_tokens ++
             [Sql.TQuoted f; Sql.TWord "LIKE"; Sql.TLiteral p; Sql.TWord "OR";
              Sql.TQuoted f; Sql.TWord "IS"; Sql.TWord "NULL"])
  = Some (Sql.COr (Sql.CCmp (Sql.OCol f) Sql.CLike (Sql.OLit (VStr p)))
                  (Sql.CIsNull (Sql.OCol f))).
Proof. reflexivity. Qed.

Lemma inert_not_colon c : inert_char c = true → not_colon c = true.
Proof.
  unfold inert_char, not_colon. intros H. apply negb_true_iff in H.
  apply orb_false_iff in H as [_ H]. by rewrite H.
Qed.

Lemma search_no_markers field value :
  in_list field column_names = true →
  all_chars inert_char value = true →
  Sql.bind_names (search_idols_query field value) = [].
Proof.
  intros Hf Hv. apply scan_markers_no_colon.
  pose proof (column_no_colon field Hf) as Hf'.
  pose proof (all_chars_impl _ _ _ inert_not_colon Hv) as Hv'.
  unfold search_idols_query. cbv zeta.
  destruct (in_list field ["Height"; "Weight"]);
    rewrite !all_chars_app, ?Hf', ?Hv'; reflexivity.
Qed.

(** For a declared column and a value made of inert characters, the text
    that [search_idols] builds reads as the condition the handler means. *)
Lemma read_search field value :
  in_list field column_names = true →
  all_chars inert_char value = true →
  Sql.read (search_idols_query field value) ∅ = Some (search_condition field value).
Proof.
  intros Hf Hv. unfold Sql.read.
  rewrite (search_no_markers field value Hf Hv). cbn [forallb].
  pose proof (column_no_backquote field Hf) as Hq.
  destruct (column_has_type field Hf) as [t Ht].
  unfold search_idols_query, search_condition. cbv zeta.
  destruct (in_list field ["Height"; "Weight"]).
  - rewrite (lex_search_relaxed field value Hq Hv). cbn [mbind option_bind].
    rewrite parse_search_relaxed. cbn [mbind option_bind].
    unfold Sql.well_typed, Sql.operand_type. rewrite Ht. by destruct t.
  - rewrite (lex_search_plain field value Hq Hv). cbn [mbind option_bind].
    rewrite parse_search_plain. cbn [mbind option_bind].
    unfold Sql.well_typed, Sql.operand_type. rewrite Ht. by destruct t.
Qed.

(** ** Search: the route *)

Lemma truthy_str_cases o :
  truthy_str o = false ↔ o = None ∨ o = Some EmptyString.
Proof.
  destruct o as [[|c s]|]; simpl; split; try done; auto.
  intros [H|H]; discriminate.
Qed.

(** Past the two checks, the handler executes exactly one statement, with
    no bound parameter, and answers from its outcome. *)
Lemma search_idols_executes field value db :
  truthy_str field = true → truthy_str value = true →
  in_list (str_of field) column_names = true →
  search_idols field value db =
  let query_str := search_idols_query (str_of field) (str_of value) in
  (match Sql.read query_str ∅ with
   | Some c =>
       match Sql.select ∅ c (table db) with
       | [] => HTTPException 404 "No idols found matching the search criteria."
       | rows => Return (row_mapping <$> rows)
       end
   | None => DatabaseError
   end,
   record (TextSelect query_str ∅) db).
Proof.
  intros Hf Hv Hc. unfold search_idols. rewrite Hf, Hv, Hc. cbn [negb orb].
  cbv zeta. unfold bind, execute.
  destruct (Sql.read _ ∅) as [c|]; [|reflexivity].
  destruct (Sql.select ∅ c (table db)) as [|r rows]; [reflexivity|].
  cbn. by rewrite dict_fmap.
Qed.

(** C7 as stated fails when the value is supplied but empty: the field is
    a declared column, both parameters are present, and the answer is 400
    all the same. *)
Lemma search_idols_empty_value :
  status (search_idols (Some "Group") (Some EmptyString) sample_db).1 = 400
  ∧ ¬ (Some "Group" = (None : option string)
       ∨ Some EmptyString = (None : option string)
       ∨ "Group" ∉ column_names).
Proof.
  split; [reflexivity|].
  intros [H|[H|H]]; [discriminate..|].
  apply H, in_list_elem. reflexivity.
Qed.

(** C7, amended. [GET /search/] answers 400 exactly when [field] or [value]
    is missing or empty, or [field] is not the name of a declared column.
    When [field] is the only thing wrong, the message names it and the
    session is left as it was: no statement has been executed. *)
Theorem search_idols_bad_request
    (field value : option string) (db : Session) :
  (status (search_idols field value db).1 = 400
   ↔ field = None ∨ field = Some EmptyString
     ∨ value = None ∨ value = Some EmptyString
     ∨ ∃ f, field = Some f ∧ f ∉ column_names)
  ∧ (∀ f v, field = Some f → value = Some v →
       f ≠ EmptyString → v ≠ EmptyString → f ∉ column_names →
       search_idols field value db
       = (HTTPException 400 ("Field '" +:+ f +:+ "' not found in the data."), db)).
Proof.
  split.
  - destruct (truthy_str field) eqn:Hf.
    2:{ unfold search_idols. rewrite Hf. cbn [negb orb raise fst status].
        apply truthy_str_cases in Hf. split; [intros _|done].
        destruct Hf; auto. }
    destruct (truthy_str value) eqn:Hv.
    2:{ unfold search_idols. rewrite Hf, Hv. cbn [negb orb raise fst status].
        apply truthy_str_cases in Hv. split; [intros _|done].
        destruct Hv; auto. }
    destruct (in_list (str_of field) column_names) eqn:Hc.
    + rewrite search_idols_executes by done. cbv zeta. cbn [fst].
      split.
      * intros H. exfalso.
        destruct (Sql.read _ ∅) as [c|]; [|discriminate].
        destruct (Sql.select ∅ c (table db)); discriminate.
      * intros [H|[H|[H|[H|H]]]].
        -- rewrite H in Hf. discriminate.
        -- rewrite H in Hf. discriminate.
        -- rewrite H in Hv. discriminate.
        -- rewrite H in Hv. discriminate.
        -- exfalso. destruct H as (f & -> & H). apply H. by apply in_list_elem.
    + unfold search_idols. rewrite Hf, Hv, Hc. cbn [negb orb raise fst status].
      split; [intros _|done]. do 4 right.
      destruct field as [f|]; [|discriminate Hf].
      exists f. split; [done|]. intros H.
      apply (proj2 (in_list_elem _ _)) in H.
      change (str_of (Some f)) with f in Hc. rewrite Hc in H. discriminate H.
  - intros f v -> -> Hne Hv Hout.
    unfold search_idols.
    destruct f as [|c f]; [done|]. destruct v as [|d v]; [done|].
    change (str_of (Some (String c f))) with (String c f).
    cbn [truthy_str negb orb].
    destruct (in_list (String c f) column_names) eqn:Hc.
    + exfalso. apply Hout. by apply in_list_elem.
    + reflexivity.
Qed.

Lemma search_idols_bad_request_witness :
  ("Groupx" ∉ column_names)
  ∧ (search_idols (Some "Groupx") (Some "x") sample_db
     = (HTTPException 400 "Field 'Groupx' not found in the data.", sample_db))
  ∧ (status (search_idols (Some "Groupx") (Some "x") sample_db).1 = 400).
Proof.
  assert (H : "Groupx" ∉ column_names).
  { intros H. apply (proj2 (in_list_elem _ _)) in H. discriminate H. }
  split; [exact H|].
  split.
  - apply (proj2 (search_idols_bad_request (Some "Groupx") (Some "x") sample_db)
             "Groupx" "x" eq_refl eq_refl); [discriminate|discriminate|exact H].
  - apply (proj1 (search_idols_bad_request (Some "Groupx") (Some "x") sample_db)).
    do 4 right. exists "Groupx". split; [reflexivity|exact H].
Defined.

(** The text that [search_idols] builds holds the field and the value as
    they were received. *)
Lemma contains_here s t : contains (s +:+ t) s = true.
Proof. apply contains_app. by exists EmptyString, t. Qed.

Lemma contains_later a s t : contains s t = true → contains (a +:+ s) t = true.
Proof.
  rewrite !contains_app. intros (s1 & s2 & ->).
  exists (a +:+ s1), s2. by rewrite append_assoc.
Qed.

Lemma search_idols_query_splices field value :
  contains (search_idols_query field value) field = true
  ∧ contains (search_idols_query field value) ("'%" +:+ value +:+ "%'") = true.
Proof.
  unfold search_idols_query. cbv zeta.
  destruct (in_list field _); split.
  - apply contains_later, contains_here.
  - apply contains_app.
    exists ("SELECT * FROM kpop_idol_followers WHERE `" +:+ field +:+ "` LIKE "),
           (" OR `" +:+ field +:+ "` IS NULL").
    by rewrite !append_assoc.
  - apply contains_later, contains_here.
  - apply contains_app.
    exists ("SELECT * FROM kpop_idol_followers WHERE `" +:+ field +:+ "` LIKE "),
           EmptyString.
    by rewrite !append_assoc.
Qed.

(** Whatever the recognized field and the value, the statement is executed
    with no bound parameter. *)
Lemma search_idols_statement field value db :
  field ≠ EmptyString → value ≠ EmptyString →
  in_list field column_names = true →
  executed (search_idols (Some field) (Some value) db).2
  = executed db ++ [TextSelect (search_idols_query field value) ∅].
Proof.
  intros Hf Hv Hc. rewrite search_idols_executes.
  - reflexivity.
  - by destruct field.
  - by destruct value.
  - exact Hc.
Qed.

(** C1 (the code departs from it). Searching Full_Name for [D'Angelo]: the
    one statement executed carries the value inside its text and has no
    bound parameter; the quote in the value ends the literal early and the
    statement fails. *)
Theorem search_idols_value_in_text :
  search_idols (Some "Full_Name") (Some "D'Angelo") sample_db
  = (DatabaseError,
     record
       (TextSelect
          "SELECT * FROM kpop_idol_followers WHERE `Full_Name` LIKE '%D'Angelo%'"
          ∅)
       sample_db).
Proof.
  rewrite search_idols_executes by reflexivity. reflexivity.
Qed.

Lemma holds_search field value r :
  Sql.holds ∅ (search_condition field value) r = search_matches field value r.
Proof.
  unfold search_condition, search_matches, Sql.holds.
  destruct (in_list field ["Height"; "Weight"]); cbn [Sql.eval Sql.eval_operand];
    destruct (default VNull (column_value r field));
    cbn [Sql.compare Sql.render Sql.or3]; try reflexivity;
    match goal with
    | |- context [Sql.like ?p ?s] => by destruct (Sql.like p s)
    end.
Qed.

(** For a declared column and a non-empty value made of inert characters,
    [GET /search/] returns the rows that match and raises 404 when there is
    none. *)
Lemma search_idols_rows field value db :
  in_list field column_names = true →
  value ≠ EmptyString → all_chars inert_char value = true →
  (search_idols (Some field) (Some value) db).1 =
  match List.filter (search_matches field value) (table db) with
  | [] => HTTPException 404 "No idols found matching the search criteria."
  | rows => Return (row_mapping <$> rows)
  end.
Proof.
  intros Hc Hne Hv.
  assert (Hf : truthy_str (Some field) = true).
  { destruct field; [discriminate Hc|reflexivity]. }
  rewrite search_idols_executes; [|exact Hf|by destruct value|exact Hc].
  change (str_of (Some field)) with field.
  change (str_of (Some value)) with value.
  cbv zeta. cbn [fst]. rewrite (read_search field value Hc Hv).
  unfold Sql.select.
  by rewrite (filter_ext_holds _ _ _ (holds_search field value)).
Qed.

(** With such a value the null relaxation works as meant: a row whose
    Height (or Weight) is null is returned by a search on that column,
    and a row whose field is null is not selected by a search on any other
    column. *)
Lemma search_idols_null_rows field value db r :
  in_list field column_names = true →
  value ≠ EmptyString → all_chars inert_char value = true →
  r ∈ table db → column_value r field = Some VNull →
  (in_list field ["Height"; "Weight"] = true →
     ∃ body, (search_idols (Some field) (Some value) db).1 = Return body
             ∧ row_mapping r ∈ body)
  ∧ (in_list field ["Height"; "Weight"] = false →
     r ∉ List.filter (search_matches field value) (table db)).
Proof.
  intros Hc Hne Hv Hr Hnull.
  rewrite (search_idols_rows field value db Hc Hne Hv).
  assert (Hm : search_matches field value r = in_list field ["Height"; "Weight"]).
  { unfold search_matches. by rewrite Hnull. }
  split; intros Hhw.
  - assert (Hin : r ∈ List.filter (search_matches field value) (table db)).
    { apply filter_elem. split; [done|]. by rewrite Hm. }
    destruct (List.filter _ _) as [|r' rows]; [by apply elem_of_nil in Hin|].
    eexists. split; [reflexivity|]. by apply list_elem_of_fmap_2.
  - intros [_ Hin]%filter_elem. congruence.
Qed.

(** A value can also rewrite the condition: here the search on Group
    returns the whole table, IU included, whose Group is null. *)
Lemma search_idols_value_rewrites_condition :
  Group iu = None
  ∧ (search_idols (Some "Group") (Some "x' OR 1=1 OR 'a' LIKE '") sample_db).1
    = Return (row_mapping <$> table sample_db).
Proof.
  split; [reflexivity|].
  rewrite search_idols_executes by reflexivity. cbv zeta. cbn [fst].
  assert (Hread :
    Sql.read (search_idols_query (str_of (Some "Group"))
                (str_of (Some "x' OR 1=1 OR 'a' LIKE '"))) ∅
    = Some (Sql.COr
              (Sql.COr
                 (Sql.CCmp (Sql.OCol "Group") Sql.CLike (Sql.OLit (VStr "%x")))
                 (Sql.CCmp (Sql.OLit (VInt 1)) Sql.CEq (Sql.OLit (VInt 1))))
              (Sql.CCmp (Sql.OLit (VStr "a")) Sql.CLike (Sql.OLit (VStr "%"))))).
  { vm_compute. reflexivity. }
  rewrite Hread. reflexivity.
Qed.

(** C8 (the code departs from it). Lisa's Height is null, yet a search on
    Height for [5'7] does not return her: the quote ends the literal early,
    the statement fails and the route answers with a server error. *)
Theorem search_idols_quote_hides_null_height :
  lisa ∈ table sample_db
  ∧ column_value lisa "Height" = Some VNull
  ∧ search_idols (Some "Height") (Some "5'7") sample_db
    = (DatabaseError,
       record
         (TextSelect
            "SELECT * FROM kpop_idol_followers WHERE `Height` LIKE '%5'7%' OR `Height` IS NULL"
            ∅)
         sample_db).
Proof.
  split; [apply elem_of_cons; by left|]. split; [reflexivity|].
  rewrite search_idols_executes by reflexivity. reflexivity.
Qed.

(** * Further properties of the routes *)

(** ** Filter *)

(** X1. [GET /filter/] answers with exactly the rows of the table that meet
    the criteria, in table order, and with 404 when no row does; whatever
    the six inputs, it never ends in a bad request or a server error. *)
Theorem filter_idols_exact
    (gender country company : option string)
    (debut_year age_from age_to : option Z) (db : Session) :
  let rows :=
    List.filter (meets_criteria gender country company debut_year age_from age_to)
                (table db) in
  (rows = []
   ∧ (filter_idols gender country company debut_year age_from age_to db).1
     = HTTPException 404 "No idols found matching the filter criteria.")
  ∨ ((∃ r rows', rows = r :: rows')
     ∧ (filter_idols gender country company debut_year age_from age_to db).1
       = Return (row_mapping <$> rows)).
Proof.
  intros rows. rewrite filter_idols_rows. fold rows.
  destruct rows as [|r rows']; [left|right]; split; try done. by exists r, rows'.
Qed.

Lemma add_clause_text supplied clause name v q :
  (add_clause supplied clause name v q).1
  = if supplied then q.1 +:+ clause else q.1.
Proof. by destruct supplied. Qed.

(** X2. The statement text of [filter_idols] depends on which criteria are
    true and on nothing else: two requests whose criteria are true in the
    same places build the same text, whatever strings and numbers they
    carry. *)
Theorem filter_text_ignores_values
    (gender country company gender' country' company' : option string)
    (debut_year age_from age_to debut_year' age_from' age_to' : option Z) :
  truthy_str gender = truthy_str gender' →
  truthy_str country = truthy_str country' →
  truthy_str company = truthy_str company' →
  truthy_int debut_year = truthy_int debut_year' →
  truthy_int age_from = truthy_int age_from' →
  truthy_int age_to = truthy_int age_to' →
  (filter_idols_query gender country company debut_year age_from age_to).1
  = (filter_idols_query gender' country' company' debut_year' age_from' age_to').1.
Proof.
  intros Hg Hc Hco Hy Hf Ht. rewrite !filter_idols_query_where.
  unfold filter_idols_where. rewrite !add_clause_text.
  by rewrite Hg, Hc, Hco, Hy, Hf, Ht.
Qed.

Lemma filter_text_ignores_values_witness :
  (filter_idols_query (Some "Girl") None None (Some 2016) None None).1
  = (filter_idols_query (Some "x' OR 1=1 OR 'a' LIKE '") None None (Some (-1))
       None None).1.
Proof.
  apply (filter_text_ignores_values
           (Some "Girl") None None (Some "x' OR 1=1 OR 'a' LIKE '") None None
           (Some 2016) None None (Some (-1)) None None); reflexivity.
Defined.

(** X3. When age_from and age_to are both supplied, not zero, and age_from
    is above age_to, no age fits and [GET /filter/] answers 404 on every
    table. *)
Theorem filter_idols_inverted_range
    (gender country company : option string) (debut_year : option Z)
    (a b : Z) (db : Session) :
  a ≠ 0 → b ≠ 0 → b < a →
  (filter_idols gender country company debut_year (Some a) (Some b) db).1
  = HTTPException 404 "No idols found matching the filter criteria.".
Proof.
  intros Ha Hb Hab. rewrite filter_idols_rows.
  rewrite filter_none; [done|]. intros r _.
  unfold meets_criteria, from_criterion, to_criterion.
  rewrite !truthy_int_nonzero by done.
  change (int_of (Some a)) with a. change (int_of (Some b)) with b.
  destruct (age r) as [n|]; [|by rewrite !andb_false_r].
  destruct (Z.leb_spec a n), (Z.leb_spec n b);
    rewrite ?andb_false_r, ?andb_true_r; try done. lia.
Qed.

Lemma filter_idols_inverted_range_witness :
  (filter_idols (Some "Girl") None None None (Some 30) (Some 20) sample_db).1
  = HTTPException 404 "No idols found matching the filter criteria.".
Proof.
  apply (filter_idols_inverted_range (Some "Girl") None None None 30 20 sample_db);
    [discriminate|discriminate|reflexivity].
Defined.

Lemma filter_idols_returns gender country company debut_year age_from age_to
    db body m :
  (filter_idols gender country company debut_year age_from age_to db).1
  = Return body →
  m ∈ body →
  ∃ r, r ∈ table db ∧ m = row_mapping r
       ∧ meets_criteria gender country company debut_year age_from age_to r = true.
Proof.
  rewrite filter_idols_rows. intros Hbody Hm.
  destruct (List.filter _ _) as [|r rows] eqn:E; [discriminate|].
  injection Hbody as <-.
  change (m ∈ row_mapping <$> r :: rows) in Hm.
  apply list_elem_of_fmap in Hm as (idol & -> & Hidol).
  rewrite <- E in Hidol. apply filter_elem in Hidol as [??]. by exists idol.
Qed.

Lemma filter_idols_includes gender country company debut_year age_from age_to
    db r :
  r ∈ table db →
  meets_criteria gender country company debut_year age_from age_to r = true →
  ∃ body,
    (filter_idols gender country company debut_year age_from age_to db).1
    = Return body
    ∧ row_mapping r ∈ body.
Proof.
  intros Hr Hmeets. rewrite filter_idols_rows.
  assert (Hin : r ∈ List.filter
                      (meets_criteria gender country company debut_year
                                      age_from age_to) (table db)).
  { apply filter_elem. by split. }
  destruct (List.filter _ _) as [|r' rows]; [by apply elem_of_nil in Hin|].
  eexists. split; [reflexivity|]. by apply list_elem_of_fmap_2.
Qed.

(** X4. Leaving a criterion out never loses a row: a mapping returned by
    [GET /filter/] is still returned when any one of the six criteria is
    dropped from the request. *)
Theorem filter_idols_drop_criterion
    (gender country company : option string)
    (debut_year age_from age_to : option Z)
    (db : Session) (body : list (gmap string sqlvalue)) (m : gmap string sqlvalue) :
  (filter_idols gender country company debut_year age_from age_to db).1
  = Return body →
  m ∈ body →
  (∃ body', (filter_idols None country company debut_year age_from age_to db).1
            = Return body' ∧ m ∈ body')
  ∧ (∃ body', (filter_idols gender None company debut_year age_from age_to db).1
              = Return body' ∧ m ∈ body')
  ∧ (∃ body', (filter_idols gender country None debut_year age_from age_to db).1
              = Return body' ∧ m ∈ body')
  ∧ (∃ body', (filter_idols gender country company None age_from age_to db).1
              = Return body' ∧ m ∈ body')
  ∧ (∃ body', (filter_idols gender country company debut_year None age_to db).1
              = Return body' ∧ m ∈ body')
  ∧ (∃ body', (filter_idols gender country company debut_year age_from None db).1
              = Return body' ∧ m ∈ body').
Proof.
  intros Hbody Hm.
  destruct (filter_idols_returns _ _ _ _ _ _ _ _ _ Hbody Hm)
    as (r & Hr & -> & Hmeets).
  unfold meets_criteria in Hmeets. rewrite !andb_true_iff in Hmeets.
  destruct Hmeets as (((((Hg & Hc) & Hco) & Hy) & Hf) & Ht).
  repeat split; apply filter_idols_includes; try done;
    unfold meets_criteria; rewrite ?Hg, ?Hc, ?Hco, ?Hy, ?Hf, ?Ht; reflexivity.
Qed.

Lemma filter_idols_drop_criterion_witness :
  (filter_idols (Some "Girl") None None (Some 2016) (Some 20) (Some 25) sample_db).1
  = Return [row_mapping lisa]
  ∧ row_mapping lisa ∈ [row_mapping lisa]
  ∧ ∃ body', (filter_idols (Some "Girl") None None (Some 2016) (Some 20) None
                sample_db).1 = Return body'
             ∧ row_mapping lisa ∈ body'.
Proof.
  assert (H1 : (filter_idols (Some "Girl") None None (Some 2016) (Some 20)
                  (Some 25) sample_db).1 = Return [row_mapping lisa]).
  { rewrite filter_idols_rows. reflexivity. }
  assert (H2 : row_mapping lisa ∈ [row_mapping lisa]).
  { apply elem_of_cons. by left. }
  split; [exact H1|]. split; [exact H2|].
  exact (proj2 (proj2 (proj2 (proj2 (proj2
           (filter_idols_drop_criterion (Some "Girl") None None (Some 2016)
              (Some 20) (Some 25) sample_db _ _ H1 H2)))))).
Defined.

(** X5. With no criteria [GET /filter/] and [GET /] give the same answer on
    every table that has a row; on the empty table they part: [GET /]
    returns the empty list, [GET /filter/] raises 404. *)
Theorem filter_idols_agrees_with_get_all (db : Session) :
  ((∃ r rows, table db = r :: rows)
   ∧ (filter_idols None None None None None None db).1 = (get_all_idols db).1)
  ∨ (table db = []
     ∧ (get_all_idols db).1 = Return []
     ∧ (filter_idols None None None None None None db).1
       = HTTPException 404 "No idols found matching the filter criteria.").
Proof.
  rewrite filter_idols_rows.
  rewrite (filter_all _ _ (λ r _, meets_no_criteria r)).
  assert (Hser : public_dict <$> table db = row_mapping <$> table db).
  { apply list_fmap_ext. intros _ idol _. apply public_dict_row. }
  unfold get_all_idols, bind, query_all, ret. cbn [fst]. rewrite Hser.
  destruct (table db) as [|r rows]; [right|left].
  - done.
  - split; [by exists r, rows|done].
Qed.

(** ** Search *)

(** X6. For a declared column and a non-empty value without quote,
    backslash or colon, [GET /search/] answers with exactly the rows that
    match, in table order, and with 404 when none does.  When the value has
    no [%] or [_] either, a row matches when the text of its field contains
    the value, or, for Height and Weight, when the field is null. *)
Theorem search_idols_exact (field value : string) (db : Session) :
  field ∈ column_names →
  value ≠ EmptyString →
  all_chars inert_char value = true →
  let rows := List.filter (search_matches field value) (table db) in
  ((rows = []
    ∧ (search_idols (Some field) (Some value) db).1
      = HTTPException 404 "No idols found matching the search criteria.")
   ∨ ((∃ r rows', rows = r :: rows')
      ∧ (search_idols (Some field) (Some value) db).1
        = Return (row_mapping <$> rows)))
  ∧ (all_chars literal_char value = true →
     ∀ r, search_matches field value r
          = match default VNull (column_value r field) with
            | VNull => in_list field ["Height"; "Weight"]
            | x =>
                match Sql.render x with
                | Some s => contains s value
                | None => false
                end
            end).
Proof.
  intros Hf Hne Hv rows. apply in_list_elem in Hf.
  rewrite (search_idols_rows field value db Hf Hne Hv). fold rows. split.
  - destruct rows as [|r rows']; [left|right]; split; try done.
    by exists r, rows'.
  - intros Hlit r. unfold search_matches.
    destruct (default VNull (column_value r field)); try reflexivity;
      cbn [Sql.render]; by rewrite like_contains.
Qed.

Lemma search_idols_exact_witness :
  "Country" ∈ column_names
  ∧ (search_idols (Some "Country") (Some "Korea") sample_db).1
    = Return [row_mapping jisoo; row_mapping iu]
  ∧ search_matches "Country" "Korea" lisa = contains "Thailand" "Korea".
Proof.
  assert (Hf : "Country" ∈ column_names) by (apply in_list_elem; reflexivity).
  assert (Hne : "Korea" ≠ EmptyString) by discriminate.
  assert (Hv : all_chars inert_char "Korea" = true) by reflexivity.
  destruct (search_idols_exact "Country" "Korea" sample_db Hf Hne Hv)
    as [[[E _]|[_ H]] Hc].
  - discriminate E.
  - split; [exact Hf|]. split; [exact H|]. exact (Hc eq_refl lisa).
Defined.

(** X7. When [field] or [value] is missing or empty, [GET /search/] answers
    400 "Both 'field' and 'value' are required." and leaves the session as
    it was, also when [field] is not the name of a column: the check on the
    presence of the parameters comes first. *)
Theorem search_idols_missing_parameter
    (field value : option string) (db : Session) :
  field = None ∨ field = Some EmptyString
  ∨ value = None ∨ value = Some EmptyString →
  search_idols field value db
  = (HTTPException 400 "Both 'field' and 'value' are required.", db).
Proof.
  intros H. unfold search_idols.
  assert (Hor : negb (truthy_str field) || negb (truthy_str value) = true).
  { destruct H as [-> | [-> | [-> | ->]]]; try reflexivity; apply orb_true_r. }
  by rewrite Hor.
Qed.

Lemma search_idols_missing_parameter_witness :
  search_idols (Some "NotAColumn") None sample_db
  = (HTTPException 400 "Both 'field' and 'value' are required.", sample_db).
Proof.
  apply (search_idols_missing_parameter (Some "NotAColumn") None sample_db).
  right. right. left. reflexivity.
Defined.

Lemma search_idols_returns field value db body m :
  in_list field column_names = true →
  value ≠ EmptyString → all_chars inert_char value = true →
  (search_idols (Some field) (Some value) db).1 = Return body →
  m ∈ body →
  ∃ r, r ∈ table db ∧ m = row_mapping r ∧ search_matches field value r = true.
Proof.
  intros Hf Hne Hv. rewrite (search_idols_rows field value db Hf Hne Hv).
  intros Hbody Hm.
  destruct (List.filter _ _) as [|r rows] eqn:E; [discriminate|].
  injection Hbody as <-.
  change (m ∈ row_mapping <$> r :: rows) in Hm.
  apply list_elem_of_fmap in Hm as (idol & -> & Hidol).
  rewrite <- E in Hidol. apply filter_elem in Hidol as [??]. by exists idol.
Qed.

Lemma search_idols_includes field value db r :
  in_list field column_names = true →
  value ≠ EmptyString → all_chars inert_char value = true →
  r ∈ table db → search_matches field value r = true →
  ∃ body, (search_idols (Some field) (Some value) db).1 = Return body
          ∧ row_mapping r ∈ body.
Proof.
  intros Hf Hne Hv Hr Hm. rewrite (search_idols_rows field value db Hf Hne Hv).
  assert (Hin : r ∈ List.filter (search_matches field value) (table db)).
  { apply filter_elem. by split. }
  destruct (List.filter _ _) as [|r' rows]; [by apply elem_of_nil in Hin|].
  eexists. split; [reflexivity|]. by apply list_elem_of_fmap_2.
Qed.

(** X8. For a non-empty value without quote, backslash or colon: a search
    on Height or on Weight returns every row where that column is null,
    whatever the value; a search on any other declared column returns no
    mapping in which that column is null. *)
Theorem search_idols_null_relaxation (field value : string) (db : Session) :
  field ∈ column_names →
  value ≠ EmptyString →
  all_chars inert_char value = true →
  (field ∈ ["Height"; "Weight"] →
     ∀ r, r ∈ table db → column_value r field = Some VNull →
       ∃ body, (search_idols (Some field) (Some value) db).1 = Return body
               ∧ row_mapping r ∈ body)
  ∧ (field ∉ ["Height"; "Weight"] →
     ∀ body m, (search_idols (Some field) (Some value) db).1 = Return body →
       m ∈ body → ∃ v, m !! field = Some v ∧ v ≠ VNull).
Proof.
  intros Hf Hne Hv. apply in_list_elem in Hf. split.
  - intros Hhw r Hr Hnull. apply search_idols_includes; try done.
    unfold search_matches. rewrite Hnull. by apply in_list_elem.
  - intros Hhw body m Hbody Hm.
    destruct (search_idols_returns _ _ _ _ _ Hf Hne Hv Hbody Hm)
      as (r & _ & -> & Hmatch).
    rewrite lookup_row. unfold search_matches in Hmatch.
    destruct (column_has_type field Hf) as [t Ht].
    destruct (column_value r field) as [v|] eqn:E.
    + exists v. split; [done|]. intros ->. simpl in Hmatch.
      apply Hhw. by apply in_list_elem.
    + simpl in Hmatch. exfalso. apply Hhw. by apply in_list_elem.
Qed.

Lemma search_idols_null_relaxation_witness :
  "Height" ∈ column_names
  ∧ "Height" ∈ ["Height"; "Weight"]
  ∧ lisa ∈ table sample_db
  ∧ column_value lisa "Height" = Some VNull
  ∧ ∃ body, (search_idols (Some "Height") (Some "170") sample_db).1 = Return body
            ∧ row_mapping lisa ∈ body.
Proof.
  assert (Hf : "Height" ∈ column_names) by (apply in_list_elem; reflexivity).
  assert (Hhw : "Height" ∈ ["Height"; "Weight"]) by (apply elem_of_cons; by left).
  assert (Hr : lisa ∈ table sample_db) by (apply elem_of_cons; by left).
  split; [exact Hf|]. split; [exact Hhw|]. split; [exact Hr|].
  split; [reflexivity|].
  apply (proj1 (search_idols_null_relaxation "Height" "170" sample_db Hf
                  ltac:(discriminate) eq_refl) Hhw lisa Hr eq_refl).
Defined.

(** *** A value with an apostrophe *)

Lemma plain_not_quote c : plain_char c = true → Ascii.eqb c "'" = false.
Proof.
  intros H. destruct (Ascii.eqb_spec c "'") as [->|]; [discriminate H|done].
Qed.

Lemma start_plain c out :
  plain_char c = true →
  ∃ m out', Sql.start c out = Some (m, out') ∧ outside_quotes m = true.
Proof.
  unfold plain_char, Sql.is_word, Sql.start. intros H.
  destruct (Ascii.is_space c) eqn:Hs; [by eexists _, _|].
  destruct (Sql.is_alpha c); [by eexists _, _|].
  destruct (Sql.is_digit c); [by eexists _, _|].
  simpl in H. apply Ascii.eqb_eq in H as ->. discriminate Hs.
Qed.

Lemma step_plain m out c :
  outside_quotes m = true → plain_char c = true →
  match Sql.step (m, out) c with
  | Some (m', _) => outside_quotes m' = true
  | None => True
  end.
Proof.
  intros Hm Hc. destruct m; try discriminate Hm; cbn [Sql.step].
  - destruct (start_plain c out Hc) as (m' & out' & -> & H). exact H.
  - destruct (Sql.is_word c); [done|].
    destruct (start_plain c (out ++ [Sql.TWord acc]) Hc) as (m' & out' & -> & H).
    exact H.
  - destruct (Sql.is_digit c); [done|]. destruct (Sql.is_alpha c); [done|].
    destruct (start_plain c (out ++ [Sql.TNumber acc]) Hc) as (m' & out' & -> & H).
    exact H.
  - rewrite (plain_not_quote c Hc).
    destruct (start_plain c (out ++ [Sql.TLiteral acc]) Hc) as (m' & out' & -> & H).
    exact H.
Qed.

Lemma lex_run_plain m out v :
  outside_quotes m = true → all_chars plain_char v = true →
  match Sql.lex_run (m, out) v with
  | Some (m', _) => outside_quotes m' = true
  | None => True
  end.
Proof.
  revert m out. induction v as [|c v IH]; intros m out Hm Hv; [exact Hm|].
  simpl in Hv. apply andb_true_iff in Hv as [Hc Hv].
  cbn [Sql.lex_run]. pose proof (step_plain m out c Hm Hc) as Hstep.
  destruct (Sql.step (m, out) c) as [[m' out']|]; [|done].
  cbn [mbind option_bind]. by apply IH.
Qed.

Lemma step_percent m out :
  outside_quotes m = true → Sql.step (m, out) "%" = None.
Proof. intros Hm. destruct m; try discriminate Hm; reflexivity. Qed.

(** Once a quote has closed the literal, plain text and then a [%] cannot
    be read. *)
Lemma lex_run_after_quote acc out v rest :
  all_chars plain_char v = true →
  Sql.lex_run (Sql.MQuote acc, out) (v +:+ String "%" rest) = None.
Proof.
  intros Hv. rewrite lex_run_app.
  pose proof (lex_run_plain (Sql.MQuote acc) out v eq_refl Hv) as H.
  destruct (Sql.lex_run (Sql.MQuote acc, out) v) as [[m' out']|]; [|done].
  cbn [mbind option_bind Sql.lex_run]. by rewrite step_percent.
Qed.

Lemma lex_run_literal_quote out v1 v2 rest :
  all_chars inert_char v1 = true → all_chars plain_char v2 = true →
  Sql.lex_run (Sql.MLiteral "%", out) ((v1 +:+ String "'" v2) +:+ String "%" rest)
  = None.
Proof.
  intros H1 H2. rewrite append_assoc, append_cons, lex_run_app.
  rewrite (lex_run_literal _ _ v1 H1). cbn [mbind option_bind Sql.lex_run].
  change (Sql.step (Sql.MLiteral ("%" +:+ v1), out) "'")
    with (Some (Sql.MQuote ("%" +:+ v1), out)).
  cbn [mbind option_bind]. by apply lex_run_after_quote.
Qed.

Lemma read_search_quote field v1 v2 :
  in_list field column_names = true →
  all_chars inert_char v1 = true → all_chars plain_char v2 = true →
  Sql.read (search_idols_query field (v1 +:+ String "'" v2)) ∅ = None.
Proof.
  intros Hf H1 H2. unfold Sql.read.
  destruct (forallb _ _); [|reflexivity].
  assert (Hlex : Sql.lex (search_idols_query field (v1 +:+ String "'" v2)) = None).
  { pose proof (column_no_backquote field Hf) as Hq.
    unfold search_idols_query, Sql.lex. cbv zeta.
    destruct (in_list field ["Height"; "Weight"]).
    - lex_piece lex_select.
      lex_piece (lex_run_quoted EmptyString select_tokens field Hq).
      lex_piece lex_like.
      change ("%' OR `" +:+ field +:+ "` IS NULL")
        with (String "%" ("' OR `" +:+ field +:+ "` IS NULL")).
      rewrite <- append_assoc. by rewrite lex_run_literal_quote.
    - lex_piece lex_select.
      lex_piece (lex_run_quoted EmptyString select_tokens field Hq).
      lex_piece lex_like.
      change "%'" with (String "%" "'").
      by rewrite lex_run_literal_quote. }
  by rewrite Hlex.
Qed.

(** X9. A value made of text without quote, backslash or colon, then an
    apostrophe, then letters, digits, underscores or spaces (a name such as
    [O'Neil]) cannot be searched in any declared column: its apostrophe
    closes the literal it was spliced into, the statement fails and the
    route ends in a server error, after the statement has been sent. *)
Theorem search_idols_apostrophe (field v1 v2 : string) (db : Session) :
  field ∈ column_names →
  all_chars inert_char v1 = true →
  all_chars plain_char v2 = true →
  search_idols (Some field) (Some (v1 +:+ String "'" v2)) db
  = (DatabaseError,
     record (TextSelect (search_idols_query field (v1 +:+ String "'" v2)) ∅) db).
Proof.
  intros Hf H1 H2. apply in_list_elem in Hf.
  rewrite search_idols_executes.
  - change (str_of (Some field)) with field.
    change (str_of (Some (v1 +:+ String "'" v2))) with (v1 +:+ String "'" v2).
    cbv zeta. by rewrite (read_search_quote field v1 v2 Hf H1 H2).
  - destruct field; [discriminate Hf|reflexivity].
  - by destruct v1.
  - exact Hf.
Qed.

Lemma search_idols_apostrophe_witness :
  "Full_Name" ∈ column_names
  ∧ search_idols (Some "Full_Name") (Some "O'Neil") sample_db
    = (DatabaseError,
       record
         (TextSelect
            "SELECT * FROM kpop_idol_followers WHERE `Full_Name` LIKE '%O'Neil%'"
            ∅)
         sample_db).
Proof.
  assert (Hf : "Full_Name" ∈ column_names) by (apply in_list_elem; reflexivity).
  split; [exact Hf|].
  exact (search_idols_apostrophe "Full_Name" "O" "Neil" sample_db Hf eq_refl eq_refl).
Defined.

(** *** A value made of wildcards *)

Lemma like_all_percent p s :
  p ≠ EmptyString → all_chars percent_char p = true → Sql.like p s = true.
Proof.
  induction p as [|c p IH]; [done|]. intros _ Hp.
  simpl in Hp. apply andb_true_iff in Hp as [Hc Hp].
  unfold percent_char in Hc. apply Ascii.eqb_eq in Hc as ->.
  destruct p as [|d p]; [apply like_any_all|].
  rewrite like_percent, IH by done. reflexivity.
Qed.

Lemma percent_inert c : percent_char c = true → inert_char c = true.
Proof. unfold percent_char. by intros ->%Ascii.eqb_eq. Qed.

Lemma assoc_elem {A} k (l : list (string * A)) a :
  assoc k l = Some a → (k, a) ∈ l.
Proof.
  induction l as [|[k' a'] l IH]; simpl; [done|].
  destruct (String.eqb_spec k k') as [->|Hne]; intros H.
  - injection H as ->. apply elem_of_cons. by left.
  - apply elem_of_cons. right. by apply IH.
Qed.

(** A column value is null or has a text. *)
Lemma column_value_render r field v :
  column_value r field = Some v → v = VNull ∨ ∃ s, Sql.render v = Some s.
Proof.
  intros H. apply assoc_elem in H. unfold row_values in H.
  repeat (apply elem_of_cons in H as [H|H];
          [injection H as -> ->;
           first [ right; eexists; reflexivity
                 | match goal with
                   | |- context [str_value ?o] => destruct o
                   | |- context [int_value ?o] => destruct o
                   | |- context [date_value ?o] => destruct o
                   end; [right; eexists; reflexivity|by left] ]|]).
  by apply elem_of_nil in H.
Qed.

(** X10. Wildcards in the value are read as wildcards: a search whose value
    is made of [%] only returns every row that has a value in the column,
    whatever that value is. *)
Theorem search_idols_percent (field value : string) (db : Session) (r : KpopIdol) :
  field ∈ column_names →
  value ≠ EmptyString →
  all_chars percent_char value = true →
  r ∈ table db →
  (∃ v, column_value r field = Some v ∧ v ≠ VNull) →
  ∃ body, (search_idols (Some field) (Some value) db).1 = Return body
          ∧ row_mapping r ∈ body.
Proof.
  intros Hf Hne Hp Hr (v & Hv & Hnn). apply in_list_elem in Hf.
  apply search_idols_includes; try done.
  { by apply (all_chars_impl _ _ _ percent_inert). }
  unfold search_matches. rewrite Hv. cbn [default from_option id].
  destruct (column_value_render r field v Hv) as [->|[s Hs]]; [done|].
  assert (Hlike : Sql.like ("%" +:+ value +:+ "%") s = true).
  { apply like_all_percent; [done|].
    change ("%" +:+ value +:+ "%") with (String "%" (value +:+ "%")).
    cbn [all_chars]. by rewrite all_chars_app, Hp. }
  destruct v; try done; cbn [Sql.render] in Hs |- *;
    injection Hs as <-; exact Hlike.
Qed.

Lemma search_idols_percent_witness :
  "Group" ∈ column_names
  ∧ lisa ∈ table sample_db
  ∧ ∃ body, (search_idols (Some "Group") (Some "%") sample_db).1 = Return body
            ∧ row_mapping lisa ∈ body.
Proof.
  assert (Hf : "Group" ∈ column_names) by (apply in_list_elem; reflexivity).
  assert (Hr : lisa ∈ table sample_db) by (apply elem_of_cons; by left).
  split; [exact Hf|]. split; [exact Hr|].
  apply (search_idols_percent "Group" "%" sample_db lisa Hf
           ltac:(discriminate) eq_refl Hr).
  exists (VStr "BLACKPINK"). split; [reflexivity|discriminate].
Defined.

(** ** The routes together *)

Lemma get_all_idols_includes db r :
  r ∈ table db →
  ∃ everyone, (get_all_idols db).1 = Return everyone ∧ row_mapping r ∈ everyone.
Proof.
  intros Hr. exists (public_dict <$> table db). split; [reflexivity|].
  rewrite <- public_dict_row. by apply list_elem_of_fmap_2.
Qed.

Lemma get_idol_by_stage_name_returns db stage_name body m :
  (get_idol_by_stage_name stage_name db).1 = Return body → m ∈ body →
  ∃ r, r ∈ table db ∧ m = row_mapping r ∧ Stage_Name r = stage_name.
Proof.
  rewrite get_idol_by_stage_name_rows. intros Hbody Hm.
  destruct (List.filter _ _) as [|r rows] eqn:E; [discriminate|].
  injection Hbody as <-.
  change (m ∈ public_dict <$> r :: rows) in Hm.
  apply list_elem_of_fmap in Hm as (idol & -> & Hidol).
  rewrite <- E in Hidol. apply filter_elem in Hidol as [? Heq].
  apply String.eqb_eq in Heq. exists idol. by rewrite public_dict_row.
Qed.

Lemma get_idols_by_group_returns db group_name body m :
  (get_idols_by_group group_name db).1 = Return body → m ∈ body →
  ∃ r, r ∈ table db ∧ m = row_mapping r ∧ Group r = Some group_name.
Proof.
  rewrite get_idols_by_group_rows. intros Hbody Hm.
  destruct (List.filter _ _) as [|r rows] eqn:E; [discriminate|].
  injection Hbody as <-.
  change (m ∈ public_dict <$> r :: rows) in Hm.
  apply list_elem_of_fmap in Hm as (idol & -> & Hidol).
  rewrite <- E in Hidol. apply filter_elem in Hidol as [? Heq].
  apply bool_decide_eq_true_1 in Heq. exists idol. by rewrite public_dict_row.
Qed.

(** X11. Every mapping that [GET /idol/{stage_name}], [GET /group/{group_name}]
    or [GET /filter/] returns is one of the mappings that [GET /] returns
    on the same table: the routes show a row the same way, whether they go
    through the ORM or through a textual statement. *)
Theorem routes_within_get_all (db : Session) (m : gmap string sqlvalue) :
  (∀ stage_name body,
     (get_idol_by_stage_name stage_name db).1 = Return body → m ∈ body →
     ∃ everyone, (get_all_idols db).1 = Return everyone ∧ m ∈ everyone)
  ∧ (∀ group_name body,
       (get_idols_by_group group_name db).1 = Return body → m ∈ body →
       ∃ everyone, (get_all_idols db).1 = Return everyone ∧ m ∈ everyone)
  ∧ (∀ gender country company debut_year age_from age_to body,
       (filter_idols gender country company debut_year age_from age_to db).1
       = Return body → m ∈ body →
       ∃ everyone, (get_all_idols db).1 = Return everyone ∧ m ∈ everyone).
Proof.
  repeat split.
  - intros stage_name body Hbody Hm.
    destruct (get_idol_by_stage_name_returns _ _ _ _ Hbody Hm) as (r & Hr & -> & _).
    by apply get_all_idols_includes.
  - intros group_name body Hbody Hm.
    destruct (get_idols_by_group_returns _ _ _ _ Hbody Hm) as (r & Hr & -> & _).
    by apply get_all_idols_includes.
  - intros gender country company debut_year age_from age_to body Hbody Hm.
    destruct (filter_idols_returns _ _ _ _ _ _ _ _ _ Hbody Hm) as (r & Hr & -> & _).
    by apply get_all_idols_includes.
Qed.

Lemma routes_within_get_all_witness :
  (filter_idols (Some "Girl") None None (Some 2016) (Some 20) (Some 25) sample_db).1
  = Return [row_mapping lisa]
  ∧ row_mapping lisa ∈ [row_mapping lisa]
  ∧ ∃ everyone, (get_all_idols sample_db).1 = Return everyone
                ∧ row_mapping lisa ∈ everyone.
Proof.
  assert (H1 : (filter_idols (Some "Girl") None None (Some 2016) (Some 20)
                  (Some 25) sample_db).1 = Return [row_mapping lisa]).
  { rewrite filter_idols_rows. reflexivity. }
  assert (H2 : row_mapping lisa ∈ [row_mapping lisa]).
  { apply elem_of_cons. by left. }
  split; [exact H1|]. split; [exact H2|].
  exact (proj2 (proj2 (routes_within_get_all sample_db (row_mapping lisa)))
           _ _ _ _ _ _ _ H1 H2).
Defined.

Lemma contains_self s : contains s s = true.
Proof. apply contains_app. exists EmptyString, EmptyString. by rewrite append_empty_r. Qed.

(** X12. The exact routes are within the search: for a name without quote,
    backslash, colon, [%] or [_], every mapping that
    [GET /idol/{name}] returns is returned by a search of Stage_Name for
    that name, and every mapping that [GET /group/{name}] returns is
    returned by a search of Group for it. *)
Theorem exact_routes_within_search
    (name : string) (db : Session)
    (body : list (gmap string sqlvalue)) (m : gmap string sqlvalue) :
  name ≠ EmptyString →
  all_chars inert_char name = true →
  all_chars literal_char name = true →
  m ∈ body →
  ((get_idol_by_stage_name name db).1 = Return body →
     ∃ found, (search_idols (Some "Stage_Name") (Some name) db).1 = Return found
              ∧ m ∈ found)
  ∧ ((get_idols_by_group name db).1 = Return body →
     ∃ found, (search_idols (Some "Group") (Some name) db).1 = Return found
              ∧ m ∈ found).
Proof.
  intros Hne Hinert Hlit Hm. split; intros Hbody.
  - destruct (get_idol_by_stage_name_returns _ _ _ _ Hbody Hm) as (r & Hr & -> & Hn).
    apply search_idols_includes; try done.
    unfold search_matches.
    change (column_value r "Stage_Name") with (Some (VStr (Stage_Name r))).
    cbn [default from_option id Sql.render].
    rewrite like_contains, Hn by done. apply contains_self.
  - destruct (get_idols_by_group_returns _ _ _ _ Hbody Hm) as (r & Hr & -> & Hg).
    apply search_idols_includes; try done.
    unfold search_matches.
    change (column_value r "Group") with (Some (str_value (Group r))).
    rewrite Hg. cbn [str_value default from_option id Sql.render].
    rewrite like_contains by done. apply contains_self.
Qed.

Lemma exact_routes_within_search_witness :
  (get_idols_by_group "BLACKPINK" sample_db).1
  = Return [public_dict lisa; public_dict jisoo]
  ∧ public_dict jisoo ∈ [public_dict lisa; public_dict jisoo]
  ∧ ∃ found, (search_idols (Some "Group") (Some "BLACKPINK") sample_db).1
             = Return found
             ∧ public_dict jisoo ∈ found.
Proof.
  assert (H1 : (get_idols_by_group "BLACKPINK" sample_db).1
               = Return [public_dict lisa; public_dict jisoo]).
  { rewrite get_idols_by_group_rows. reflexivity. }
  assert (H2 : public_dict jisoo ∈ [public_dict lisa; public_dict jisoo]).
  { apply elem_of_cons. right. apply elem_of_cons. by left. }
  split; [exact H1|]. split; [exact H2|].
  exact (proj2 (exact_routes_within_search "BLACKPINK" sample_db _ _
                  ltac:(discriminate) eq_refl eq_refl H2) H1).
Defined.

(** ** Sessions *)

(** X13. Every answer comes after exactly one statement, the 404 answers
    included, except the 400 answers of [GET /search/], which come before
    any statement; the statements executed earlier in the session stay in
    its record. *)
Theorem one_statement_per_request (db : Session) :
  (get_all_idols db).2 = record (OrmSelect None) db
  ∧ (∀ stage_name, ∃ criterion,
       (get_idol_by_stage_name stage_name db).2
       = record (OrmSelect (Some criterion)) db)
  ∧ (∀ group_name, ∃ criterion,
       (get_idols_by_group group_name db).2
       = record (OrmSelect (Some criterion)) db)
  ∧ (∀ gender country company debut_year age_from age_to,
       let q := filter_idols_query gender country company debut_year
                  age_from age_to in
       (filter_idols gender country company debut_year age_from age_to db).2
       = record (TextSelect q.1 q.2) db)
  ∧ (∀ field value,
       (status (search_idols field value db).1 = 400
        ∧ (search_idols field value db).2 = db)
       ∨ (∃ f v, field = Some f ∧ value = Some v
            ∧ (search_idols field value db).2
              = record (TextSelect (search_idols_query f v) ∅) db
            ∧ (status (search_idols field value db).1 = 200
               ∨ status (search_idols field value db).1 = 404
               ∨ status (search_idols field value db).1 = 500))).
Proof.
  split; [reflexivity|]. split.
  { intros stage_name. eexists.
    unfold get_idol_by_stage_name, bind, query_all. cbn [fst snd].
    by destruct (Sql.select _ _ _). }
  split.
  { intros group_name. eexists.
    unfold get_idols_by_group, bind, query_all. cbn [fst snd].
    by destruct (Sql.select _ _ _). }
  split.
  { intros gender country company debut_year age_from age_to q.
    unfold filter_idols. fold q. destruct q as [query_str params].
    unfold bind, execute. cbn [fst snd].
    destruct (Sql.read query_str params) as [c|]; [|reflexivity].
    by destruct (Sql.select params c (table db)). }
  intros field value.
  destruct (truthy_str field) eqn:Hf.
  2:{ left. unfold search_idols. by rewrite Hf. }
  destruct (truthy_str value) eqn:Hv.
  2:{ left. unfold search_idols. by rewrite Hf, Hv. }
  destruct (in_list (str_of field) column_names) eqn:Hc.
  2:{ left. unfold search_idols. by rewrite Hf, Hv, Hc. }
  right. destruct field as [f|]; [|discriminate Hf].
  destruct value as [v|]; [|discriminate Hv].
  exists f, v. split; [done|]. split; [done|].
  rewrite search_idols_executes by done. cbv zeta. cbn [fst snd].
  split; [reflexivity|].
  destruct (Sql.read _ ∅) as [c|]; [|by right; right].
  destruct (Sql.select ∅ c (table db)); [by right; left|by left].
Qed.

(** ** Start-up *)

(** X14. The module starts only with a non-empty [DATABASE_URL].  The value
    of the process environment is used when the variable is set there, even
    to the empty string (start-up then stops with the [ValueError] although
    [.env] may have a URL); the value of [.env] is used only when the
    environment does not have the variable. *)
Theorem startup_database_url (dotenv environ : gmap string string) :
  startup dotenv environ
  = match environ !! "DATABASE_URL", dotenv !! "DATABASE_URL" with
    | Some (String c url), _ => create_engine (String c url)
    | Some EmptyString, _ =>
        ValueError "DATABASE_URL environment variable not set."
    | None, Some (String c url) => create_engine (String c url)
    | None, _ => ValueError "DATABASE_URL environment variable not set."
    end.
Proof.
  unfold startup, load_dotenv. cbv zeta. rewrite lookup_union.
  destruct (environ !! "DATABASE_URL") as [[|c url]|];
    destruct (dotenv !! "DATABASE_URL") as [[|d url']|]; reflexivity.
Qed.
